(** * Lymely county map preparation: [Resources/Map/script.py]

    The script joins a per-county table of Lyme disease cases (CSV) to the
    county boundaries (GeoJSON) on the county identifier [GEOID], prints
    the counties for which some field is missing, and writes the joined
    collection to a new GeoJSON file.

    The development embeds the script line by line.  The pandas and
    geopandas operations it calls are written out as functions on a small
    data-frame model; the decoding and encoding of files, which the script
    never looks into, are parameters of the development. *)

From Stdlib Require Import ZArith Ascii DecimalString.
From stdpp Require Import gmap strings list sorting.

(** ** Cell values

    A cell of a frame holds a dynamically typed value.  [VNone] and [VNaN]
    are the two missing-value markers of pandas (Python's [None] and the
    float [nan]); [VFloat z] is the finite float whose value is the
    integer [z], which is what the cells of an integer column become when
    the merge has to put [NaN] into that column; a geometry is carried in
    its textual form, since the script never inspects it.  Characters are
    modelled by [ascii]. *)

Inductive value :=
| VNone
| VNaN
| VStr (s : string)
| VInt (n : Z)
| VFloat (n : Z)
| VGeom (wkt : string).

#[global] Instance value_eq_dec : EqDecision value.
Proof. solve_decision. Defined.

(** [Series.isna] on one cell. *)
Definition isna (v : value) : bool :=
  match v with
  | VNone | VNaN => true
  | _ => false
  end.

(** The conversion of a 64-bit integer to a 64-bit float: exact below
    [2 ^ 53], and above that the nearest multiple of the spacing of the
    floats at that magnitude, a tie going to the even significand. *)
Definition round_float (n : Z) : Z :=
  let a := Z.abs n in
  if (a <? 2 ^ 53)%Z then n
  else
    let u := (2 ^ (Z.log2 a - 52))%Z in
    let q := (a / u)%Z in
    let r := (a mod u)%Z in
    let q' := if (2 * r <? u)%Z then q
              else if (u <? 2 * r)%Z then (q + 1)%Z
              else if Z.even q then q else (q + 1)%Z in
    (Z.sgn n * (q' * u))%Z.

(** Python's [repr] of a float of integral value, which is also its
    [str].  Python prints the shortest decimal that reads back as the
    same float (the nearest to it when there are several), without an
    exponent below [1e16] and with one from there on.

    [candidate z p] is the multiple of [p] nearest [z] among those that
    read back as [z], if there is one; [shortest] takes the largest power
    of ten that has a candidate. *)
Definition candidate (z p : Z) : option Z :=
  let lo := (z / p * p)%Z in
  let hi := (lo + p)%Z in
  match (round_float lo =? z)%Z, (round_float hi =? z)%Z with
  | true, true =>
      if (2 * (z - lo) <? p)%Z then Some lo
      else if (p <? 2 * (z - lo))%Z then Some hi
      else if Z.even (lo / p) then Some lo else Some hi
  | true, false => Some lo
  | false, true => Some hi
  | false, false => None
  end.

Fixpoint shortest (fuel : nat) (z p best : Z) : Z :=
  match fuel with
  | O => best
  | S fuel' =>
      match candidate z (10 * p) with
      | Some c => shortest fuel' z (10 * p) c
      | None => best
      end
  end.

Fixpoint strip_zeros (s : string) : string :=
  match s with
  | EmptyString => EmptyString
  | String c s' =>
      match strip_zeros s' with
      | EmptyString =>
          if Ascii.eqb c "0" then EmptyString else String c EmptyString
      | t => String c t
      end
  end.

Definition digits (z : Z) : string := NilZero.string_of_int (Z.to_int z).

Definition float_repr (z : Z) : string :=
  let a := Z.abs z in
  let sign := if (z <? 0)%Z then "-" else "" in
  if (a <? 10 ^ 16)%Z then sign +:+ digits a +:+ ".0"
  else
    let d := digits (shortest (String.length (digits a)) a 1 a) in
    let e := digits (Z.of_nat (String.length d - 1)) in
    match strip_zeros d with
    | String c EmptyString => sign +:+ String c EmptyString +:+ "e+" +:+ e
    | String c t => sign +:+ String c ("." +:+ t) +:+ "e+" +:+ e
    | EmptyString => sign
    end.

(** Python's [str(v)], which [astype(str)] applies to every cell, the
    missing-value markers included. *)
Definition py_str (v : value) : string :=
  match v with
  | VNone => "None"
  | VNaN => "nan"
  | VStr s => s
  | VInt n => NilZero.string_of_int (Z.to_int n)
  | VFloat z => float_repr z
  | VGeom wkt => wkt
  end.

(** [Series.astype(str)]. *)
Definition astype_str (col : list value) : list value :=
  map (fun v => VStr (py_str v)) col.

(** ** [str.zfill]

    [Series.str.zfill(width)] applies Python's [str.zfill] to every string
    cell: a string of at least [width] characters is returned as it is;
    a shorter one is filled with ['0'] on the left, and a leading sign
    character ['+'] or ['-'] is kept in front of the zeros. *)

Definition is_sign (c : Ascii.ascii) : bool :=
  Ascii.eqb c "+"%char || Ascii.eqb c "-"%char.

Fixpoint zeros (n : nat) : string :=
  match n with
  | O => EmptyString
  | S n' => String "0"%char (zeros n')
  end.

Definition zfill (width : nat) (s : string) : string :=
  if (width <=? String.length s)%nat then s
  else
    let fill := (width - String.length s)%nat in
    match s with
    | String c rest =>
        if is_sign c then String c (zeros fill +:+ rest)
        else zeros fill +:+ s
    | EmptyString => zeros fill
    end.

(** The [.str] accessor maps every cell that is not a string to [NaN]. *)
Definition zfill_cell (width : nat) (v : value) : value :=
  match v with
  | VStr s => VStr (zfill width s)
  | _ => VNaN
  end.

Definition str_zfill (width : nat) (col : list value) : list value :=
  map (zfill_cell width) col.

(** [Series.str.startswith(pat)]: [Some b] for a string cell, [None] (the
    [NaN] of an object column) for any other cell. *)
Definition str_startswith (pat : string) (col : list value) : list (option bool) :=
  map (fun v => match v with
                | VStr s => Some (String.prefix pat s)
                | _ => None
                end) col.

(** ** Exceptions and results

    The exceptions are told apart by kind.  [FileNotFoundError path] is
    the kind raised for an input file that does not exist: Python's
    [FileNotFoundError] from [pd.read_csv], and from [gpd.read_file] the
    error with which its reading engine reports a data source that cannot
    be opened.  [ParseError path] is the kind raised for content that
    cannot be decoded. *)

Inductive exn :=
| FileNotFoundError (path : string)
| ParseError (path : string)
| KeyError (key : string)
| TypeError
| ValueError
| IOError (path : string).

Inductive result (A : Type) :=
| Ok (a : A)
| Err (e : exn).
Arguments Ok {A} a.
Arguments Err {A} e.

(** A raised exception skips the rest of the computation. *)
#[global] Instance result_bind : MBind result :=
  fun A B (k : A -> result B) (r : result A) =>
    match r with
    | Ok a => k a
    | Err e => Err e
    end.

(** ** Data frames

    A frame has named columns and a sequence of rows; a row carries its
    index label and its cells, one per column. *)

Definition row : Type := nat * list value.

Record DataFrame := mkFrame {
  columns : list string;
  rows : list row
}.

Definition label (r : row) : nat := fst r.
Definition cells (r : row) : list value := snd r.

Definition cell (cs : list value) (p : nat) : value :=
  default VNaN (cs !! p).

Fixpoint find_column (name : string) (cols : list string) : option nat :=
  match cols with
  | [] => None
  | c :: cols' =>
      if String.eqb c name then Some O
      else S <$> find_column name cols'
  end.

(** [df[name]]: the cells of one column, [KeyError] when there is no such
    column. *)
Definition getitem (df : DataFrame) (name : string) : result (list value) :=
  match find_column name (columns df) with
  | Some p => Ok (map (fun r => cell (cells r) p) (rows df))
  | None => Err (KeyError name)
  end.

(** [df[name] = col]: the column is replaced in place when it exists and
    appended otherwise.  [col] is aligned with the rows by position. *)
Definition setitem (df : DataFrame) (name : string) (col : list value) : DataFrame :=
  match find_column name (columns df) with
  | Some p =>
      mkFrame (columns df)
              (zip_with (fun r v => (label r, <[p := v]> (cells r))) (rows df) col)
  | None =>
      mkFrame (columns df ++ [name])
              (zip_with (fun r v => (label r, cells r ++ [v])) (rows df) col)
  end.

(** [df[[n1; ...; nk]]]: a frame of the listed columns. *)
Fixpoint column_positions (names cols : list string) : result (list nat) :=
  match names with
  | [] => Ok []
  | n :: names' =>
      match find_column n cols with
      | Some p => ps ← column_positions names' cols; Ok (p :: ps)
      | None => Err (KeyError n)
      end
  end.

Definition select_columns (df : DataFrame) (names : list string) : result DataFrame :=
  ps ← column_positions names (columns df);
  Ok (mkFrame names (map (fun r => (label r, map (cell (cells r)) ps)) (rows df))).

(** [df.isna().any(axis=1)]. *)
Definition any_isna (df : DataFrame) : list (option bool) :=
  map (fun r => Some (existsb isna (cells r))) (rows df).

(** [~mask] on a Series: [TypeError] on a [NaN] entry. *)
Fixpoint invert (mask : list (option bool)) : result (list (option bool)) :=
  match mask with
  | [] => Ok []
  | Some b :: mask' => m ← invert mask'; Ok (Some (negb b) :: m)
  | None :: _ => Err TypeError
  end.

(** [df[mask]]: the rows whose mask entry is [True], labels kept;
    [ValueError] when the mask holds a [NaN]. *)
Fixpoint mask_rows (rs : list row) (mask : list (option bool)) : result (list row) :=
  match rs, mask with
  | r :: rs', Some b :: mask' =>
      sel ← mask_rows rs' mask'; Ok (if b then r :: sel else sel)
  | _ :: _, None :: _ => Err ValueError
  | _, _ => Ok []
  end.

Definition boolean_index (df : DataFrame) (mask : list (option bool)) : result DataFrame :=
  sel ← mask_rows (rows df) mask; Ok (mkFrame (columns df) sel).

(** ** [DataFrame.merge(right, on=key, how='left')]

    Join keys are compared as values; two missing keys match each other,
    as in pandas. *)
Definition key_match (a b : value) : bool :=
  (isna a && isna b) || bool_decide (a = b).

(** Positions, counted from [j], of the right keys that match [k]. *)
Fixpoint match_positions (j : nat) (k : value) (rkeys : list value) : list nat :=
  match rkeys with
  | [] => []
  | r :: rkeys' =>
      if key_match k r then j :: match_positions (S j) k rkeys'
      else match_positions (S j) k rkeys'
  end.

(** The left and right row indexers of a left join: the left rows in their
    order, each paired with every matching right row in the order of the
    right frame, or with no row when nothing matches.  [block i k] is the
    part that comes from the left key [k] at position [i]. *)
Definition block (i : nat) (k : value) (rkeys : list value) : list (nat * option nat) :=
  match match_positions 0 k rkeys with
  | [] => [(i, None)]
  | js => map (fun j => (i, Some j)) js
  end.

Fixpoint join_indexers (i : nat) (lkeys rkeys : list value) : list (nat * option nat) :=
  match lkeys with
  | [] => []
  | k :: lkeys' => block i k rkeys ++ join_indexers (S i) lkeys' rkeys
  end.

(** Positions of the columns of a frame of [n] columns other than the
    key column [kp]. *)
Definition other_positions (kp n : nat) : list nat :=
  filter (fun p => p ≠ kp) (seq 0 n).

(** Result columns: the left columns, then the right columns without the
    key; a name other than the key that occurs on both sides gets the
    suffix [_x] on the left and [_y] on the right. *)
Definition merged_columns (on : string) (lcols rcols : list string) (others : list nat)
  : list string :=
  map (fun c => if bool_decide (c ≠ on ∧ c ∈ rcols) then c +:+ "_x" else c) lcols ++
  map (fun p => let c := default EmptyString (rcols !! p) in
                if bool_decide (c ∈ lcols) then c +:+ "_y" else c) others.

(** Taking rows of the right frame with [NaN] for a left row without
    match promotes the integer columns of the right frame to float: as
    soon as one left row has no match, every cell of a column that holds
    integers only is converted. *)
Definition is_int (v : value) : bool :=
  match v with
  | VInt _ => true
  | _ => false
  end.

Definition int_column (rrows : list row) (p : nat) : bool :=
  forallb (fun r => is_int (cell (cells r) p)) rrows.

Definition upcast (v : value) : value :=
  match v with
  | VInt n => VFloat (round_float n)
  | _ => v
  end.

Definition promote_row (rrows : list row) (r : row) : row :=
  (label r,
   imap (fun p v => if int_column rrows p then upcast v else v) (cells r)).

Definition unmatched (ix : nat * option nat) : bool :=
  match ix.2 with
  | None => true
  | Some _ => false
  end.

Definition taken_rows (rrows : list row) (ixs : list (nat * option nat)) : list row :=
  if existsb unmatched ixs then map (promote_row rrows) rrows else rrows.

(** The cell that the result takes from position [q] of the right row
    [r]: promoted when promotion applies and the column holds integers
    only. *)
Definition taken_cell (promote : bool) (rrows : list row) (r : row) (q : nat) : value :=
  if promote && int_column rrows q then upcast (cell (cells r) q)
  else cell (cells r) q.

(** One result row: the cells of the left row followed by the cells of the
    matching right row without its key, or by [NaN] in every such column
    when there is no matching row. *)
Definition merge_row (lrows rrows : list row) (others : list nat)
    (n : nat) (ix : nat * option nat) : row :=
  let lcells := from_option cells [] (lrows !! ix.1) in
  let rcells :=
    match ix.2 ≫= (fun j => rrows !! j) with
    | Some r => map (cell (cells r)) others
    | None => map (fun _ => VNaN) others
    end in
  (n, lcells ++ rcells).

(** The result has a fresh index [0, 1, ...].  (For a left frame without
    rows the result has no rows; the place pandas gives the key column
    among the result columns in that case is not told apart here.) *)
Definition merge_left (left right : DataFrame) (on : string) : result DataFrame :=
  lkeys ← getitem left on;
  rkeys ← getitem right on;
  match find_column on (columns right) with
  | Some kp =>
      let others := other_positions kp (length (columns right)) in
      let ixs := join_indexers 0 lkeys rkeys in
      Ok (mkFrame (merged_columns on (columns left) (columns right) others)
                  (imap (merge_row (rows left) (taken_rows (rows right) ixs) others)
                        ixs))
  | None => Err (KeyError on)
  end.

(** ** The script's state

    The variables the script assigns, and the part of the outside world it
    touches: the files by path, the paths that cannot be written, and the
    messages printed so far. *)

Record globals := mkGlobals {
  counties : DataFrame;
  csv_data : DataFrame;
  merged_data : DataFrame;
  missing_data : DataFrame;
  missing_mainland : DataFrame;
  missing_non_mainland : DataFrame
}.

Record world := mkWorld {
  files : gmap string string;
  readonly : gset string;
  stdout : list string
}.

Record state := mkState {
  py : globals;
  os : world
}.

Definition set_counties (df : DataFrame) (g : globals) : globals :=
  mkGlobals df (csv_data g) (merged_data g) (missing_data g)
            (missing_mainland g) (missing_non_mainland g).
Definition set_csv_data (df : DataFrame) (g : globals) : globals :=
  mkGlobals (counties g) df (merged_data g) (missing_data g)
            (missing_mainland g) (missing_non_mainland g).
Definition set_merged_data (df : DataFrame) (g : globals) : globals :=
  mkGlobals (counties g) (csv_data g) df (missing_data g)
            (missing_mainland g) (missing_non_mainland g).
Definition set_missing_data (df : DataFrame) (g : globals) : globals :=
  mkGlobals (counties g) (csv_data g) (merged_data g) df
            (missing_mainland g) (missing_non_mainland g).
Definition set_missing_mainland (df : DataFrame) (g : globals) : globals :=
  mkGlobals (counties g) (csv_data g) (merged_data g) (missing_data g)
            df (missing_non_mainland g).
Definition set_missing_non_mainland (df : DataFrame) (g : globals) : globals :=
  mkGlobals (counties g) (csv_data g) (merged_data g) (missing_data g)
            (missing_mainland g) df.

(** A statement either completes in a new state or raises; nothing in the
    script catches an exception, so a raised one ends the run. *)
Inductive outcome :=
| Done (s : state)
| Raised (e : exn) (s : state).

Definition stmt : Type := state -> outcome.

Fixpoint run (prog : list stmt) (s : state) : outcome :=
  match prog with
  | [] => Done s
  | c :: prog' =>
      match c s with
      | Done s' => run prog' s'
      | Raised e s' => Raised e s'
      end
  end.

(** The state in which a run ends. *)
Definition final (o : outcome) : state :=
  match o with
  | Done s => s
  | Raised _ s => s
  end.

(** Two runs end alike: both complete, in states related by [P], or both
    raise the same exception. *)
Definition same_outcome (P : state -> state -> Prop) (o1 o2 : outcome) : Prop :=
  match o1, o2 with
  | Done a, Done b => P a b
  | Raised e1 _, Raised e2 _ => e1 = e2
  | _, _ => False
  end.

(** [var = rhs]. *)
Definition assign (set : DataFrame -> globals -> globals)
    (rhs : state -> result DataFrame) : stmt :=
  fun s =>
    match rhs s with
    | Ok df => Done (mkState (set df (py s)) (os s))
    | Err e => Raised e s
    end.

(** [print(msg)]. *)
Definition print (msg : state -> result string) : stmt :=
  fun s =>
    match msg s with
    | Ok m => Done (mkState (py s)
                      (mkWorld (files (os s)) (readonly (os s)) (stdout (os s) ++ [m])))
    | Err e => Raised e s
    end.

Definition geojson_path : string := "counties.geojson".
Definition csv_path : string := "lyme_disease_2022.csv".
Definition output_geojson_path : string := "merged_county_data.geojson".

Definition newline : string := String (ascii_of_nat 10) EmptyString.

(** ** The expressions of the script *)

(** Line 9, right-hand side and assignment:
    [counties['GEOID'] = counties['GEOID'].astype(str).str.zfill(5)]. *)
Definition normalize_counties (df : DataFrame) : result DataFrame :=
  g ← getitem df "GEOID";
  Ok (setitem df "GEOID" (str_zfill 5 (astype_str g))).

(** Line 11: [csv_data['GEOID'] = csv_data['GEOID'].str.zfill(5)]. *)
Definition normalize_csv (df : DataFrame) : result DataFrame :=
  g ← getitem df "GEOID";
  Ok (setitem df "GEOID" (str_zfill 5 g)).

(** Lines 9, 11 and 12 on the two frames as loaded. *)
Definition joined (boundaries attributes : DataFrame) : result DataFrame :=
  l ← normalize_counties boundaries;
  r ← normalize_csv attributes;
  merge_left l r "GEOID".

(** Line 13: [merged_data[merged_data.isna().any(axis=1)]]. *)
Definition rows_with_missing (merged : DataFrame) : result DataFrame :=
  boolean_index merged (any_isna merged).

(** Line 14: [missing_data[~missing_data['GEOID'].str.startswith('72')]]. *)
Definition mainland_of (missing : DataFrame) : result DataFrame :=
  g ← getitem missing "GEOID";
  m ← invert (str_startswith "72" g);
  boolean_index missing m.

(** Line 15: [missing_data[missing_data['GEOID'].str.startswith('72')]]. *)
Definition non_mainland_of (missing : DataFrame) : result DataFrame :=
  g ← getitem missing "GEOID";
  boolean_index missing (str_startswith "72" g).

(** ** Notions used in the statements *)

(** A frame is rectangular when every row has one cell per column. *)
Definition rectangular (df : DataFrame) : bool :=
  forallb (fun r => Nat.eqb (length (cells r)) (length (columns df))) (rows df).

(** The identifier column of a frame (empty when there is none). *)
Definition identifiers (df : DataFrame) : list value :=
  match getitem df "GEOID" with
  | Ok g => g
  | Err _ => []
  end.

(** The test of lines 14 and 15 on one row, [p] being the position of the
    identifier column. *)
Definition starts_with_72 (p : nat) (r : row) : bool :=
  match cell (cells r) p with
  | VStr s => String.prefix "72" s
  | _ => false
  end.

(** [out] is the row [r] followed by further cells. *)
Definition extends (out r : row) : Prop :=
  exists tail, cells out = cells r ++ tail.

(** No left key is matched by two rows of the right frame. *)
Definition matched_at_most_once (lkeys rkeys : list value) : bool :=
  forallb (fun k => length (match_positions 0 k rkeys) <=? 1) lkeys.

(** ** Frames used in the examples *)

Definition ex_counties : DataFrame :=
  mkFrame ["GEOID"; "NAME"; "geometry"]
    [(0, [VInt 6001; VStr "Alameda"; VGeom "POLYGON ((0 0, 1 0, 1 1, 0 0))"]);
     (1, [VStr "72001"; VStr "Adjuntas"; VGeom "POLYGON ((2 2, 3 2, 3 3, 2 2))"]);
     (2, [VStr "01001"; VStr "Autauga"; VGeom "POLYGON ((4 4, 5 4, 5 5, 4 4))"])].

Definition ex_cases : DataFrame :=
  mkFrame ["GEOID"; "Cases"]
    [(0, [VStr "1001"; VInt 3]);
     (1, [VStr "06001"; VInt 7]);
     (2, [VStr "99999"; VInt 1])].

Definition ex_counties_normalized : DataFrame :=
  mkFrame ["GEOID"; "NAME"; "geometry"]
    [(0, [VStr "06001"; VStr "Alameda"; VGeom "POLYGON ((0 0, 1 0, 1 1, 0 0))"]);
     (1, [VStr "72001"; VStr "Adjuntas"; VGeom "POLYGON ((2 2, 3 2, 3 3, 2 2))"]);
     (2, [VStr "01001"; VStr "Autauga"; VGeom "POLYGON ((4 4, 5 4, 5 5, 4 4))"])].

Definition ex_cases_normalized : DataFrame :=
  mkFrame ["GEOID"; "Cases"]
    [(0, [VStr "01001"; VInt 3]);
     (1, [VStr "06001"; VInt 7]);
     (2, [VStr "99999"; VInt 1])].

Definition ex_merged : DataFrame :=
  mkFrame ["GEOID"; "NAME"; "geometry"; "Cases"]
    [(0, [VStr "06001"; VStr "Alameda"; VGeom "POLYGON ((0 0, 1 0, 1 1, 0 0))"; VFloat 7]);
     (1, [VStr "72001"; VStr "Adjuntas"; VGeom "POLYGON ((2 2, 3 2, 3 3, 2 2))"; VNaN]);
     (2, [VStr "01001"; VStr "Autauga"; VGeom "POLYGON ((4 4, 5 4, 5 5, 4 4))"; VFloat 3])].

(** A county whose identifier has six characters, and one whose
    identifier carries a sign. *)
Definition ex_long_county : DataFrame :=
  mkFrame ["GEOID"; "NAME"] [(0, [VStr "123456"; VStr "Nowhere"])].

Definition ex_signed_county : DataFrame :=
  mkFrame ["GEOID"; "NAME"] [(0, [VStr "-1"; VStr "Unknown"])].

(** One county, and a table that lists it twice, once without its
    leading zero. *)
Definition ex_one_county : DataFrame :=
  mkFrame ["GEOID"; "NAME"] [(0, [VStr "06001"; VStr "Alameda"])].

Definition ex_cases_twice : DataFrame :=
  mkFrame ["GEOID"; "Cases"]
    [(0, [VStr "06001"; VInt 7]);
     (1, [VStr "6001"; VInt 8])].

(** A decoder given by a table of file contents, used to run the script
    on concrete files. *)
Definition decode_by_table (table : list (string * DataFrame)) (txt : string)
  : option DataFrame :=
  snd <$> List.find (fun p => String.eqb (fst p) txt) table.

(** A run of the script on the example frames: the two input files, a
    decoder that knows them, and an encoder that lists the identifiers. *)
Definition ex_decode_geojson : string -> option DataFrame :=
  decode_by_table [("{counties}", ex_counties)].

Definition ex_decode_csv (strs : list string) : string -> option DataFrame :=
  decode_by_table [("GEOID,Cases", ex_cases)].

Definition ex_to_string (df : DataFrame) : string :=
  String.concat "," (map py_str (identifiers df)).

Definition ex_encode_geojson (df : DataFrame) : option string :=
  Some (ex_to_string df).

Definition ex_empty : DataFrame := mkFrame [] [].

Definition ex_globals : globals :=
  mkGlobals ex_empty ex_empty ex_empty ex_empty ex_empty ex_empty.

Definition ex_state : state :=
  mkState ex_globals
    (mkWorld {[ geojson_path := "{counties}"; csv_path := "GEOID,Cases" ]} ∅ []).

(** The same input files in another environment: other variables, an old
    output file, earlier output on the terminal. *)
Definition ex_state_other : state :=
  mkState
    (mkGlobals ex_cases ex_counties ex_empty ex_empty ex_empty ex_empty)
    (mkWorld {[ geojson_path := "{counties}"; csv_path := "GEOID,Cases";
                output_geojson_path := "old" ]} ∅ ["earlier output"]).

(** No table of cases. *)
Definition ex_state_no_csv : state :=
  mkState ex_globals (mkWorld {[ geojson_path := "{counties}" ]} ∅ []).

Definition ex_missing : DataFrame :=
  mkFrame ["GEOID"; "NAME"; "geometry"; "Cases"]
    [(1, [VStr "72001"; VStr "Adjuntas"; VGeom "POLYGON ((2 2, 3 2, 3 3, 2 2))"; VNaN])].

(** A table of cases that has a name column of its own, and a run on it. *)
Definition ex_cases_named : DataFrame :=
  mkFrame ["GEOID"; "NAME"; "Cases"]
    [(0, [VStr "1001"; VStr "Autauga County"; VInt 3]);
     (1, [VStr "06001"; VStr "Alameda County"; VInt 7])].

Definition ex_decode_csv_named (strs : list string) : string -> option DataFrame :=
  decode_by_table [("GEOID,NAME,Cases", ex_cases_named)].

Definition ex_state_named : state :=
  mkState ex_globals
    (mkWorld {[ geojson_path := "{counties}"; csv_path := "GEOID,NAME,Cases" ]}
             ∅ []).

(** The example files with an output path that cannot be written. *)
Definition ex_state_readonly : state :=
  mkState ex_globals
    (mkWorld {[ geojson_path := "{counties}"; csv_path := "GEOID,Cases" ]}
             {[ output_geojson_path ]} []).

(** The state after line 12 of the run on the example files. *)
Definition ex_state_merged : state :=
  mkState
    (mkGlobals ex_counties_normalized ex_cases_normalized ex_merged
               ex_empty ex_empty ex_empty)
    (mkWorld {[ geojson_path := "{counties}"; csv_path := "GEOID,Cases" ]} ∅ []).

(** Two counties with a complete table of cases. *)
Definition ex_two_counties : DataFrame :=
  mkFrame ["GEOID"; "NAME"]
    [(0, [VStr "06001"; VStr "Alameda"]); (1, [VStr "01001"; VStr "Autauga"])].

Definition ex_two_cases : DataFrame :=
  mkFrame ["GEOID"; "Cases"]
    [(0, [VStr "01001"; VInt 3]); (1, [VStr "06001"; VInt 7])].

Definition ex_two_merged : DataFrame :=
  mkFrame ["GEOID"; "NAME"; "Cases"]
    [(0, [VStr "06001"; VStr "Alameda"; VInt 7]);
     (1, [VStr "01001"; VStr "Autauga"; VInt 3])].

Section Script.

(** Decoding and encoding of files and the textual form of a frame
    belong to the libraries; the script depends on them only through
    these four functions.  [decode_csv strs] reads the columns named in
    [strs] as strings. *)
Variable decode_geojson : string -> option DataFrame.
Variable decode_csv : list string -> string -> option DataFrame.
Variable encode_geojson : DataFrame -> option string.
Variable to_string : DataFrame -> string.

(** [gpd.read_file(path)]. *)
Definition gpd_read_file (path : string) (w : world) : result DataFrame :=
  match files w !! path with
  | None => Err (FileNotFoundError path)
  | Some txt =>
      match decode_geojson txt with
      | Some df => Ok df
      | None => Err (ParseError path)
      end
  end.

(** [pd.read_csv(path, dtype={c: str for c in strs})]. *)
Definition pd_read_csv (path : string) (strs : list string) (w : world)
  : result DataFrame :=
  match files w !! path with
  | None => Err (FileNotFoundError path)
  | Some txt =>
      match decode_csv strs txt with
      | Some df => Ok df
      | None => Err (ParseError path)
      end
  end.

(** [df.to_file(path, driver='GeoJSON')]: the file is replaced by the
    encoding of the whole frame.  A call that raises is taken to leave the
    files as they were. *)
Definition to_file (df : state -> DataFrame) (path : string) : stmt :=
  fun s =>
    match encode_geojson (df s) with
    | None => Raised ValueError s
    | Some txt =>
        if bool_decide (path ∈ readonly (os s)) then Raised (IOError path) s
        else Done (mkState (py s)
                     (mkWorld (<[path := txt]> (files (os s)))
                              (readonly (os s)) (stdout (os s))))
    end.

Definition line_8 : stmt :=
  assign set_counties (fun s => gpd_read_file geojson_path (os s)).
Definition line_9 : stmt :=
  assign set_counties (fun s => normalize_counties (counties (py s))).
Definition line_10 : stmt :=
  assign set_csv_data (fun s => pd_read_csv csv_path ["GEOID"] (os s)).
Definition line_11 : stmt :=
  assign set_csv_data (fun s => normalize_csv (csv_data (py s))).
Definition line_12 : stmt :=
  assign set_merged_data
    (fun s => merge_left (counties (py s)) (csv_data (py s)) "GEOID").
Definition line_13 : stmt :=
  assign set_missing_data (fun s => rows_with_missing (merged_data (py s))).
Definition line_14 : stmt :=
  assign set_missing_mainland (fun s => mainland_of (missing_data (py s))).
Definition line_15 : stmt :=
  assign set_missing_non_mainland
    (fun s => non_mainland_of (missing_data (py s))).
Definition line_16 : stmt :=
  print (fun s =>
    t ← select_columns (missing_mainland (py s)) ["GEOID"; "NAME"];
    Ok ("Mainland USA counties with missing data:" +:+ newline +:+ to_string t)).
Definition line_17 : stmt :=
  print (fun s =>
    t ← select_columns (missing_non_mainland (py s)) ["GEOID"; "NAME"];
    Ok ("Non-mainland counties with missing data:" +:+ newline +:+ to_string t)).
Definition line_19 : stmt :=
  to_file (fun s => merged_data (py s)) output_geojson_path.
Definition line_20 : stmt :=
  print (fun _ => Ok ("New GeoJSON file saved at: " +:+ output_geojson_path)).

Definition loader_normalizer_merger : list stmt :=
  [line_8; line_9; line_10; line_11; line_12].
Definition reporter : list stmt :=
  [line_13; line_14; line_15; line_16; line_17].
Definition writer : list stmt :=
  [line_19; line_20].

Definition script : list stmt :=
  loader_normalizer_merger ++ reporter ++ writer.

(** ** Zero filling *)

Lemma length_zeros n : String.length (zeros n) = n.
Proof using. induction n; simpl; congruence. Qed.

Lemma length_string_app (s t : string) :
  String.length (s +:+ t) = String.length s + String.length t.
Proof using. induction s; simpl; [reflexivity | congruence]. Qed.

Lemma string_app_empty_r (s : string) : s +:+ EmptyString = s.
Proof using.
  induction s as [| c s IH]; [reflexivity |].
  exact (f_equal (String c) IH).
Qed.

Lemma zfill_long width s :
  width <= String.length s -> zfill width s = s.
Proof using.
  intros H. unfold zfill.
  destruct (Nat.leb_spec width (String.length s)); [done | lia].
Qed.

Lemma zfill_short_unsigned width s :
  String.length s < width ->
  (forall c rest, s = String c rest -> is_sign c = false) ->
  zfill width s = zeros (width - String.length s) +:+ s.
Proof using.
  intros Hlen Hsign. unfold zfill.
  destruct (Nat.leb_spec width (String.length s)); [lia |].
  destruct s as [| c rest].
  - by rewrite string_app_empty_r.
  - by rewrite (Hsign c rest eq_refl).
Qed.

Lemma zfill_short_signed width c rest :
  String.length (String c rest) < width ->
  is_sign c = true ->
  zfill width (String c rest)
  = String c (zeros (width - String.length (String c rest)) +:+ rest).
Proof using.
  intros Hlen Hsign. unfold zfill.
  destruct (Nat.leb_spec width (String.length (String c rest))); [lia |].
  by rewrite Hsign.
Qed.

Lemma length_zfill width s :
  String.length (zfill width s) = width `max` String.length s.
Proof using.
  unfold zfill. destruct (Nat.leb_spec width (String.length s)) as [Hle | Hlt].
  - lia.
  - destruct s as [| c rest]; cbn [String.length] in *.
    + rewrite length_zeros. lia.
    + destruct (is_sign c); cbn [String.length];
        rewrite length_string_app, length_zeros; cbn [String.length]; lia.
Qed.

(** A zero-filled string begins with ['0'], or with the sign the
    original began with. *)
Lemma zfill_short_head width s :
  String.length s < width ->
  exists c rest, zfill width s = String c rest /\
    (c = "0"%char \/ (is_sign c = true /\ exists rest0, s = String c rest0)).
Proof using.
  intros Hlen. destruct s as [| c rest].
  - rewrite zfill_short_unsigned by (done || lia).
    cbn [String.length] in *. destruct width as [| w]; [lia |].
    replace (S w - 0) with (S w) by lia. simpl. eauto.
  - destruct (is_sign c) eqn:Hc.
    + rewrite zfill_short_signed by done. eauto 10.
    + rewrite zfill_short_unsigned; [| done | by intros ?? [= <- <-]].
      destruct (width - String.length (String c rest)) as [| n] eqn:Hn;
        [lia |]. simpl. eauto.
Qed.

Lemma prefix_72_head s :
  String.prefix "72" s = true -> exists rest, s = String "7"%char rest.
Proof using.
  destruct s as [| c rest]; cbn [String.prefix]; [done |].
  destruct (Ascii.ascii_dec "7" c) as [<- |]; [eauto | done].
Qed.

(** A string shorter than five characters never passes the ["72"] test
    once it is zero-filled. *)
Lemma zfill_short_not_72 s :
  String.length s < 5 -> String.prefix "72" (zfill 5 s) = false.
Proof using.
  intros Hlen. destruct (String.prefix "72" (zfill 5 s)) eqn:Hp; [| done].
  apply prefix_72_head in Hp as [rest Hrest].
  destruct (zfill_short_head 5 s Hlen) as (c & rest' & Hz & Hc).
  rewrite Hz in Hrest. injection Hrest as -> _.
  destruct Hc as [Hc | [Hc _]]; discriminate Hc.
Qed.

(** ** Columns and cells *)

Lemma find_column_Some name cols p :
  find_column name cols = Some p -> cols !! p = Some name.
Proof using.
  revert p. induction cols as [| c cols IH]; intros p; simpl; [done |].
  destruct (String.eqb_spec c name) as [-> | Hne].
  - by intros [= <-].
  - destruct (find_column name cols) as [q |]; simpl; [| done].
    intros [= <-]. by apply IH.
Qed.

Lemma find_column_lt name cols p :
  find_column name cols = Some p -> p < length cols.
Proof using. intros H. eapply lookup_lt_Some, find_column_Some, H. Qed.

Lemma cell_insert cs p v : p < length cs -> cell (<[p := v]> cs) p = v.
Proof using. intros H. unfold cell. by rewrite list_lookup_insert_eq. Qed.

Lemma cell_app_l cs tail p : p < length cs -> cell (cs ++ tail) p = cell cs p.
Proof using. intros H. unfold cell. by rewrite lookup_app_l. Qed.

Lemma rectangular_Forall df :
  rectangular df = true <->
  Forall (fun r => length (cells r) = length (columns df)) (rows df).
Proof using.
  unfold rectangular. rewrite forallb_forall, Forall_forall.
  split; intros H r Hr.
  - apply Nat.eqb_eq, H. by apply list_elem_of_In.
  - apply Nat.eqb_eq, H. by apply list_elem_of_In.
Qed.

Lemma getitem_Ok df name p :
  find_column name (columns df) = Some p ->
  getitem df name = Ok (map (fun r => cell (cells r) p) (rows df)).
Proof using. intros H. unfold getitem. by rewrite H. Qed.

Lemma getitem_inv df name g :
  getitem df name = Ok g ->
  exists p, find_column name (columns df) = Some p /\
            g = map (fun r => cell (cells r) p) (rows df).
Proof using.
  unfold getitem. destruct (find_column name (columns df)) as [p |]; [| done].
  intros [= <-]. eauto.
Qed.

(** Replacing a column by a function of its own cells. *)
Lemma setitem_map df name p (h : value -> value) :
  find_column name (columns df) = Some p ->
  setitem df name (map h (map (fun r => cell (cells r) p) (rows df)))
  = mkFrame (columns df)
      (map (fun r => (label r, <[p := h (cell (cells r) p)]> (cells r))) (rows df)).
Proof using.
  intros H. unfold setitem. rewrite H. f_equal.
  rewrite map_map. induction (rows df) as [| r rs IH]; simpl; congruence.
Qed.

Lemma normalize_with_inv (h : value -> value) df l :
  (g ← getitem df "GEOID"; Ok (setitem df "GEOID" (map h g))) = Ok l ->
  exists p, find_column "GEOID" (columns df) = Some p /\
    l = mkFrame (columns df)
          (map (fun r => (label r, <[p := h (cell (cells r) p)]> (cells r)))
               (rows df)).
Proof using.
  destruct (getitem df "GEOID") as [g | e] eqn:Hg; simpl; [| done].
  apply getitem_inv in Hg as (p & Hp & ->).
  rewrite (setitem_map _ _ _ _ Hp). intros [= <-]. eauto.
Qed.

Lemma normalize_counties_inv b l :
  normalize_counties b = Ok l ->
  exists p, find_column "GEOID" (columns b) = Some p /\
    l = mkFrame (columns b)
          (map (fun r => (label r,
                          <[p := VStr (zfill 5 (py_str (cell (cells r) p)))]> (cells r)))
               (rows b)).
Proof using.
  unfold normalize_counties, str_zfill, astype_str. intros H.
  apply (normalize_with_inv (fun v => VStr (zfill 5 (py_str v)))).
  rewrite <- H. destruct (getitem b "GEOID"); simpl; [| done].
  by rewrite map_map.
Qed.

Lemma normalize_csv_inv a r :
  normalize_csv a = Ok r ->
  exists p, find_column "GEOID" (columns a) = Some p /\
    r = mkFrame (columns a)
          (map (fun x => (label x, <[p := zfill_cell 5 (cell (cells x) p)]> (cells x)))
               (rows a)).
Proof using. apply normalize_with_inv. Qed.

(** The identifier column after normalization, on a rectangular frame. *)
Lemma identifiers_normalized (h : value -> value) df p :
  find_column "GEOID" (columns df) = Some p ->
  rectangular df = true ->
  identifiers
    (mkFrame (columns df)
       (map (fun r => (label r, <[p := h (cell (cells r) p)]> (cells r))) (rows df)))
  = map h (identifiers df).
Proof using.
  intros Hp Hrect. unfold identifiers, getitem. simpl. rewrite Hp.
  rewrite !map_map. apply rectangular_Forall in Hrect.
  apply map_ext_Forall. eapply Forall_impl; [exact Hrect |].
  intros r Hr. simpl. apply cell_insert. rewrite Hr.
  by eapply find_column_lt.
Qed.

(** ** The join indexers *)

Lemma elem_of_match_positions j0 k rkeys j :
  j ∈ match_positions j0 k rkeys <->
  exists r, j0 <= j /\ rkeys !! (j - j0) = Some r /\ key_match k r = true.
Proof using.
  revert j0. induction rkeys as [| r rs IH]; intros j0; simpl.
  - split; [by intros ?%elem_of_nil | by intros (? & ? & ? & ?)].
  - assert (Hstep : forall r',
      (S j0 <= j /\ rs !! (j - S j0) = Some r') <->
      (j0 <= j /\ j <> j0 /\ (r :: rs) !! (j - j0) = Some r')).
    { intros r'. split.
      - intros [Hle Hl]. replace (j - j0) with (S (j - S j0)) by lia.
        repeat split; [lia | lia | done].
      - intros (Hle & Hne & Hl).
        replace (j - j0) with (S (j - S j0)) in Hl by lia.
        split; [lia | done]. }
    destruct (key_match k r) eqn:Hk.
    + rewrite elem_of_cons, IH. split.
      * intros [-> | (r' & Hle & Hl & Hm)].
        -- exists r. rewrite Nat.sub_diag. eauto.
        -- exists r'. destruct (proj1 (Hstep r')) as (? & ? & ?); eauto.
      * intros (r' & Hle & Hl & Hm).
        destruct (decide (j = j0)) as [-> | Hne]; [by left | right].
        exists r'. destruct (proj2 (Hstep r')) as (? & ?); eauto.
    + rewrite IH. split.
      * intros (r' & Hle & Hl & Hm).
        exists r'. destruct (proj1 (Hstep r')) as (? & ? & ?); eauto.
      * intros (r' & Hle & Hl & Hm).
        destruct (decide (j = j0)) as [-> | Hne].
        -- rewrite Nat.sub_diag in Hl. simpl in Hl. congruence.
        -- exists r'. destruct (proj2 (Hstep r')) as (? & ?); eauto.
Qed.

Lemma match_positions_NoDup j0 k rkeys : NoDup (match_positions j0 k rkeys).
Proof using.
  revert j0. induction rkeys as [| r rs IH]; intros j0; simpl.
  - constructor.
  - destruct (key_match k r); [| apply IH].
    constructor; [| apply IH].
    rewrite elem_of_match_positions. intros (? & ? & _). lia.
Qed.

Lemma match_positions_at_most_one lkeys rkeys k :
  matched_at_most_once lkeys rkeys = true -> k ∈ lkeys ->
  length (match_positions 0 k rkeys) <= 1.
Proof using.
  unfold matched_at_most_once. rewrite forallb_forall.
  intros Hone Hk%list_elem_of_In. by apply Nat.leb_le, Hone.
Qed.

Lemma join_indexers_cons i k lkeys rkeys :
  join_indexers i (k :: lkeys) rkeys
  = block i k rkeys ++ join_indexers (S i) lkeys rkeys.
Proof using. reflexivity. Qed.

Lemma block_fst i k rkeys : Forall (fun ix => ix.1 = i) (block i k rkeys).
Proof using.
  unfold block. destruct (match_positions 0 k rkeys) as [| j js].
  - by repeat constructor.
  - apply Forall_fmap, Forall_true. done.
Qed.

Lemma block_length i k rkeys :
  length (block i k rkeys) = 1 `max` length (match_positions 0 k rkeys).
Proof using.
  unfold block. destruct (match_positions 0 k rkeys) as [| j js]; [done |].
  rewrite length_map. simpl. lia.
Qed.

Lemma elem_of_block i k rkeys i' oj :
  (i', oj) ∈ block i k rkeys <->
  i' = i /\ match oj with
            | Some j => j ∈ match_positions 0 k rkeys
            | None => match_positions 0 k rkeys = []
            end.
Proof using.
  unfold block. destruct (match_positions 0 k rkeys) as [| j js] eqn:Hmp.
  - rewrite list_elem_of_singleton. split.
    + intros [= -> ->]. done.
    + intros [-> H]. destruct oj; [by apply elem_of_nil in H | done].
  - rewrite list_elem_of_fmap. split.
    + intros (j' & [= -> ->] & Hj). done.
    + intros [-> H]. destruct oj as [j' |]; [eauto | done].
Qed.

Lemma elem_of_join_indexers i lkeys rkeys i' oj :
  (i', oj) ∈ join_indexers i lkeys rkeys <->
  exists k, i <= i' /\ lkeys !! (i' - i) = Some k /\
    match oj with
    | Some j => j ∈ match_positions 0 k rkeys
    | None => match_positions 0 k rkeys = []
    end.
Proof using.
  revert i. induction lkeys as [| k ks IH]; intros i.
  - simpl. split; [by intros ?%elem_of_nil | by intros (? & ? & ? & ?)].
  - rewrite join_indexers_cons, elem_of_app, elem_of_block, IH. split.
    + intros [[-> H] | (k' & Hle & Hl & H)].
      * exists k. rewrite Nat.sub_diag. eauto.
      * exists k'. replace (i' - i) with (S (i' - S i)) by lia.
        split; [lia | done].
    + intros (k' & Hle & Hl & H). destruct (decide (i' = i)) as [-> | Hne].
      * rewrite Nat.sub_diag in Hl. injection Hl as ->. by left.
      * right. exists k'.
        replace (i' - i) with (S (i' - S i)) in Hl by lia.
        split; [lia | done].
Qed.

Lemma join_indexers_bounds i lkeys rkeys :
  Forall (fun ix => i <= ix.1 < i + length lkeys) (join_indexers i lkeys rkeys).
Proof using.
  apply Forall_forall. intros [i' oj] Hin.
  apply elem_of_join_indexers in Hin as (k & Hle & Hl & _).
  apply lookup_lt_Some in Hl. simpl. lia.
Qed.

(** The left indexer never decreases: the join keeps the order of the
    left frame. *)
Lemma join_indexers_sorted i lkeys rkeys :
  StronglySorted le (map fst (join_indexers i lkeys rkeys)).
Proof using.
  revert i. induction lkeys as [| k ks IH]; intros i; [constructor |].
  rewrite join_indexers_cons, map_app. apply StronglySorted_app_2.
  - intros x1 x2 H1 H2.
    apply list_elem_of_fmap in H1 as (ix1 & -> & H1).
    apply list_elem_of_fmap in H2 as (ix2 & -> & H2).
    pose proof (block_fst i k rkeys) as Hb.
    rewrite Forall_forall in Hb. rewrite (Hb _ H1).
    pose proof (join_indexers_bounds (S i) ks rkeys) as Hj.
    rewrite Forall_forall in Hj. specialize (Hj _ H2). lia.
  - pose proof (block_fst i k rkeys) as Hb.
    induction Hb as [| ix ixs Hix Hb IHb]; simpl; constructor; [done |].
    apply Forall_fmap. eapply Forall_impl; [exact Hb |]. simpl. lia.
  - apply IH.
Qed.

Lemma join_indexers_length_ge i lkeys rkeys :
  length lkeys <= length (join_indexers i lkeys rkeys).
Proof using.
  revert i. induction lkeys as [| k ks IH]; intros i; [done |].
  rewrite join_indexers_cons, length_app, block_length.
  specialize (IH (S i)). simpl. lia.
Qed.

Lemma join_indexers_length i lkeys rkeys :
  length (join_indexers i lkeys rkeys)
  = sum_list (map (fun k => 1 `max` length (match_positions 0 k rkeys)) lkeys).
Proof using.
  revert i. induction lkeys as [| k ks IH]; intros i; [done |].
  rewrite join_indexers_cons, length_app, block_length, (IH (S i)). done.
Qed.

(** When no left key is matched twice, the left indexer is the identity:
    one result row per left row. *)
Lemma join_indexers_at_most_once i lkeys rkeys :
  (forall k, k ∈ lkeys -> length (match_positions 0 k rkeys) <= 1) ->
  map fst (join_indexers i lkeys rkeys) = seq i (length lkeys).
Proof using.
  revert i. induction lkeys as [| k ks IH]; intros i Hone; [done |].
  rewrite join_indexers_cons, map_app, IH by (intros; apply Hone; set_solver).
  simpl. f_equal.
  assert (Hk : length (match_positions 0 k rkeys) <= 1) by (apply Hone; set_solver).
  unfold block. destruct (match_positions 0 k rkeys) as [| j [| j' js]];
    simpl in *; [done | done | lia].
Qed.

Lemma match_positions_nil k rkeys :
  match_positions 0 k rkeys = [] <->
  forall x, x ∈ rkeys -> key_match k x = false.
Proof using.
  split.
  - intros Hnil x Hx. apply list_elem_of_lookup in Hx as [j Hj].
    destruct (key_match k x) eqn:Hm; [| done].
    assert (j ∈ match_positions 0 k rkeys) as Hin.
    { apply elem_of_match_positions. exists x. rewrite Nat.sub_0_r.
      split; [lia | done]. }
    rewrite Hnil in Hin. by apply elem_of_nil in Hin.
  - intros Hno. destruct (match_positions 0 k rkeys) as [| j js] eqn:Hmp; [done |].
    assert (j ∈ match_positions 0 k rkeys) as Hin by (rewrite Hmp; set_solver).
    apply elem_of_match_positions in Hin as (x & _ & Hl & Hm).
    rewrite Hno in Hm; [done |]. eapply list_elem_of_lookup_2, Hl.
Qed.

(** ** The merged frame *)

Lemma identifiers_rows df p :
  find_column "GEOID" (columns df) = Some p ->
  identifiers df = map (fun r => cell (cells r) p) (rows df).
Proof using. intros H. unfold identifiers. by rewrite (getitem_Ok _ _ _ H). Qed.

Lemma merge_left_inv l r m :
  merge_left l r "GEOID" = Ok m ->
  exists kp, find_column "GEOID" (columns r) = Some kp /\
    m = mkFrame
          (merged_columns "GEOID" (columns l) (columns r)
             (other_positions kp (length (columns r))))
          (imap (merge_row (rows l)
                   (taken_rows (rows r)
                      (join_indexers 0 (identifiers l) (identifiers r)))
                   (other_positions kp (length (columns r))))
                (join_indexers 0 (identifiers l) (identifiers r))).
Proof using.
  unfold merge_left, identifiers.
  destruct (getitem l "GEOID") as [lk | e]; simpl; [| done].
  destruct (getitem r "GEOID") as [rk | e]; simpl; [| done].
  destruct (find_column "GEOID" (columns r)) as [kp |]; [| done].
  intros [= <-]. eauto.
Qed.

Lemma joined_merge b a l r :
  normalize_counties b = Ok l -> normalize_csv a = Ok r ->
  joined b a = merge_left l r "GEOID".
Proof using. intros Hl Hr. unfold joined. by rewrite Hl, Hr. Qed.

Lemma joined_inv b a m :
  joined b a = Ok m ->
  exists l r, normalize_counties b = Ok l /\ normalize_csv a = Ok r /\
              merge_left l r "GEOID" = Ok m.
Proof using.
  unfold joined.
  destruct (normalize_counties b) as [l | e]; simpl; [| done].
  destruct (normalize_csv a) as [r | e]; simpl; [| done]. eauto.
Qed.

Lemma normalize_counties_length b l :
  normalize_counties b = Ok l -> length (rows l) = length (rows b).
Proof using.
  intros (p & _ & ->)%normalize_counties_inv. simpl. by rewrite length_map.
Qed.

Lemma identifiers_length df p :
  find_column "GEOID" (columns df) = Some p ->
  length (identifiers df) = length (rows df).
Proof using. intros H. by rewrite (identifiers_rows _ _ H), length_map. Qed.

Lemma identifiers_length_normalized b l :
  normalize_counties b = Ok l -> length (identifiers l) = length (rows l).
Proof using.
  intros (p & Hp & ->)%normalize_counties_inv.
  by apply (identifiers_length _ p).
Qed.

Lemma merge_row_extends lrows rrows others n i oj lrow :
  lrows !! i = Some lrow ->
  extends (merge_row lrows rrows others n (i, oj)) lrow.
Proof using. intros H. unfold extends, merge_row. simpl. rewrite H. simpl. eauto. Qed.

(** ** Cardinality and order of the join *)

(** C1, amended: the merged output has one row for every pair of a
    boundary record and an attribute record with the same normalized
    identifier, and one row for every boundary record without such a
    pair.  It has at least as many rows as the boundary collection; when
    no boundary identifier is carried by two attribute records it has
    exactly as many, and the boundary records appear once each, in
    place. *)
Theorem left_join_cardinality b a l r m :
  normalize_counties b = Ok l ->
  normalize_csv a = Ok r ->
  joined b a = Ok m ->
  length (rows m)
  = sum_list (map (fun k => 1 `max` length (match_positions 0 k (identifiers r)))
                  (identifiers l)) /\
  length (rows b) <= length (rows m) /\
  (matched_at_most_once (identifiers l) (identifiers r) = true ->
   length (rows m) = length (rows b) /\ Forall2 extends (rows m) (rows l)).
Proof using.
  intros Hl Hr Hm. rewrite (joined_merge _ _ _ _ Hl Hr) in Hm.
  apply merge_left_inv in Hm as (kp & Hkp & ->). cbn [rows].
  rewrite length_imap.
  pose proof (normalize_counties_length _ _ Hl) as Hlen.
  pose proof (identifiers_length_normalized _ _ Hl) as Hids.
  split; [apply join_indexers_length |].
  split.
  { rewrite <- Hlen, <- Hids. apply join_indexers_length_ge. }
  intros Hone.
  assert (Hfst : map fst (join_indexers 0 (identifiers l) (identifiers r))
                 = seq 0 (length (rows l))).
  { rewrite <- Hids. apply join_indexers_at_most_once.
    intros k Hk. by eapply match_positions_at_most_one. }
  assert (Hlen' : length (join_indexers 0 (identifiers l) (identifiers r))
                  = length (rows l)).
  { by rewrite <- (length_map fst), Hfst, length_seq. }
  split; [congruence |].
  apply Forall2_same_length_lookup_2; [by rewrite length_imap |].
  intros n out lrow Hout Hlrow.
  apply list_lookup_imap_Some in Hout as ([i oj] & Hix & ->).
  assert (Hi : map fst (join_indexers 0 (identifiers l) (identifiers r)) !! n
               = Some i) by (by rewrite list_lookup_fmap, Hix).
  rewrite Hfst in Hi. apply lookup_seq in Hi as [-> _].
  by apply merge_row_extends.
Qed.

(** C9: the rows of the merged output follow the order of the boundary
    collection.  The boundary row behind each output row is given by a
    left indexer that never decreases and passes through every boundary
    row; the output index is the fresh sequence [0, 1, ...]. *)
Theorem merge_keeps_boundary_order b a l m :
  normalize_counties b = Ok l ->
  joined b a = Ok m ->
  exists left_indexer : list nat,
    StronglySorted le left_indexer /\
    Forall2 (fun out i => exists lrow, rows l !! i = Some lrow /\ extends out lrow)
            (rows m) left_indexer /\
    (forall i, i < length (rows b) -> i ∈ left_indexer) /\
    map label (rows m) = seq 0 (length (rows m)).
Proof using.
  intros Hl Hm. apply joined_inv in Hm as (l' & r & Hl' & Hr & Hm).
  assert (l' = l) as -> by congruence.
  apply merge_left_inv in Hm as (kp & Hkp & ->). cbn [rows].
  pose proof (normalize_counties_length _ _ Hl) as Hlen.
  pose proof (identifiers_length_normalized _ _ Hl) as Hids.
  set (ixs := join_indexers 0 (identifiers l) (identifiers r)).
  exists (map fst ixs). split; [apply join_indexers_sorted |].
  split; [| split].
  - apply Forall2_same_length_lookup_2; [by rewrite length_imap, length_map |].
    intros n out i Hout Hi.
    apply list_lookup_imap_Some in Hout as ([i' oj] & Hix & ->).
    rewrite list_lookup_fmap, Hix in Hi. injection Hi as <-.
    pose proof (join_indexers_bounds 0 (identifiers l) (identifiers r)) as Hb.
    rewrite Forall_forall in Hb.
    specialize (Hb _ (list_elem_of_lookup_2 _ _ _ Hix)). simpl in Hb.
    destruct (lookup_lt_is_Some_2 (rows l) i') as [lrow Hlrow]; [lia |].
    exists lrow. split; [done |]. by apply merge_row_extends.
  - intros i Hi.
    destruct (lookup_lt_is_Some_2 (identifiers l) i) as [k Hk]; [lia |].
    destruct (match_positions 0 k (identifiers r)) as [| j js] eqn:Hmp.
    + apply list_elem_of_fmap. exists (i, None). split; [done |].
      apply elem_of_join_indexers. exists k. rewrite Nat.sub_0_r.
      split; [lia | done].
    + apply list_elem_of_fmap. exists (i, Some j). split; [done |].
      apply elem_of_join_indexers. exists k. rewrite Nat.sub_0_r.
      split; [lia |]. split; [done |]. rewrite Hmp. by left.
  - rewrite length_imap. generalize ixs. intros ixs'.
    change (map label (imap (merge_row (rows l) (rows r)
              (other_positions kp (length (columns r)))) ixs'))
      with (label <$> imap (merge_row (rows l) (rows r)
              (other_positions kp (length (columns r)))) ixs').
    rewrite fmap_imap.
  rewrite (imap_ext _ (fun j _ => id j)) by done.
  by rewrite imap_seq_0, list_fmap_id.
Qed.

Lemma cell_promote_row rrows r p :
  cell (cells (promote_row rrows r)) p
  = if int_column rrows p then upcast (cell (cells r) p) else cell (cells r) p.
Proof using.
  unfold promote_row, cell. simpl. rewrite list_lookup_imap.
  destruct (cells r !! p); simpl; by destruct (int_column rrows p).
Qed.

Lemma taken_rows_lookup rrows ixs j rrow :
  rrows !! j = Some rrow ->
  exists rr,
    taken_rows rrows ixs !! j = Some rr /\
    forall q, cell (cells rr) q = taken_cell (existsb unmatched ixs) rrows rrow q.
Proof using.
  intros H. unfold taken_rows, taken_cell.
  destruct (existsb unmatched ixs); simpl.
  - exists (promote_row rrows rrow). rewrite list_lookup_fmap, H.
    split; [done |]. intros q. apply cell_promote_row.
  - eauto.
Qed.

Lemma merge_row_matched lrows rrows ixs others n i j lrow rrow :
  lrows !! i = Some lrow ->
  rrows !! j = Some rrow ->
  merge_row lrows (taken_rows rrows ixs) others n (i, Some j)
  = (n, cells lrow
        ++ map (taken_cell (existsb unmatched ixs) rrows rrow) others).
Proof using.
  intros Hl Hr. destruct (taken_rows_lookup rrows ixs j rrow Hr) as (rr & Hrr & Hc).
  unfold merge_row. simpl. rewrite Hl, Hrr. simpl. do 2 f_equal.
  apply map_ext. exact Hc.
Qed.

Lemma merge_row_unmatched lrows rrows others n i lrow :
  lrows !! i = Some lrow ->
  merge_row lrows rrows others n (i, None)
  = (n, cells lrow ++ map (fun _ => VNaN) others).
Proof using. intros Hl. unfold merge_row. simpl. by rewrite Hl. Qed.

(** Promotion applies exactly when some left key has no match. *)
Lemma promotion_iff lkeys rkeys :
  existsb unmatched (join_indexers 0 lkeys rkeys) = true <->
  exists k, k ∈ lkeys /\ forall x, x ∈ rkeys -> key_match k x = false.
Proof using.
  rewrite existsb_exists. split.
  - intros ([i [j |]] & Hin & Hun); [done |].
    apply list_elem_of_In, elem_of_join_indexers in Hin as (k & _ & Hk & Hnil).
    exists k. split; [eapply list_elem_of_lookup_2, Hk |].
    by apply match_positions_nil.
  - intros (k & [i Hk]%list_elem_of_lookup & Hno).
    exists (i, None). split; [| done].
    apply list_elem_of_In, elem_of_join_indexers. exists k.
    rewrite Nat.sub_0_r. split; [lia |]. split; [done |].
    by apply match_positions_nil.
Qed.

(** Two normalized identifiers match exactly when the attribute
    identifier is a string with the same zero-filled form. *)
Lemma indexers_pair_iff b a p q i j :
  find_column "GEOID" (columns b) = Some p ->
  find_column "GEOID" (columns a) = Some q ->
  rectangular b = true ->
  rectangular a = true ->
  (i, Some j) ∈ join_indexers 0
    (map (fun v => VStr (zfill 5 (py_str v))) (identifiers b))
    (map (zfill_cell 5) (identifiers a)) <->
  exists v t,
    identifiers b !! i = Some v /\ identifiers a !! j = Some (VStr t) /\
    zfill 5 (py_str v) = zfill 5 t.
Proof using.
  intros Hp Hq Hrb Hra.
  rewrite elem_of_join_indexers. setoid_rewrite elem_of_match_positions.
  rewrite Nat.sub_0_r. setoid_rewrite Nat.sub_0_r.
  setoid_rewrite list_lookup_fmap_Some. split.
  - intros (k & _ & (v & -> & Hv) & x & _ & (y & -> & Hy) & Hm).
    unfold key_match in Hm. simpl in Hm. apply bool_decide_eq_true in Hm.
    destruct y as [| | t | | |]; try done. injection Hm as Hm. eauto 10.
  - intros (v & t & Hv & Ht & Heq).
    exists (VStr (zfill 5 (py_str v))). split; [lia |]. split; [eauto |].
    exists (VStr (zfill 5 t)). split; [lia |]. split.
    + exists (VStr t). done.
    + unfold key_match. simpl. apply bool_decide_eq_true. by rewrite Heq.
Qed.

(** C2: the merge is a left join on the normalized identifier.  The
    output rows are, in order, the entries of the join indexers.  An
    entry pairs a boundary row with an attribute row whose identifier
    matches, and its row is the boundary row followed by the other cells
    of that attribute row (as floats for an integer column, once some
    boundary row has no match); or it holds a boundary row that no
    attribute row matches, followed by [NaN] in every attribute-only
    column.  Every matching pair and every boundary row without match
    has its row in the output; an attribute row whose identifier matches
    no boundary row is in no entry, so no output row takes a cell from
    it.  On rectangular frames two rows are paired exactly when the
    attribute identifier is a string with the same zero-filled form as
    the boundary identifier. *)
Theorem left_join_semantics b a l r m :
  normalize_counties b = Ok l ->
  normalize_csv a = Ok r ->
  joined b a = Ok m ->
  exists kp,
    find_column "GEOID" (columns r) = Some kp /\
    let others := other_positions kp (length (columns r)) in
    let ixs := join_indexers 0 (identifiers l) (identifiers r) in
    let promote := existsb unmatched ixs in
    (forall q, q ∈ others <-> q < length (columns r) /\ q <> kp) /\
    length (rows m) = length ixs /\
    (forall n out,
       rows m !! n = Some out ->
       label out = n /\
       exists i oj lrow k,
         ixs !! n = Some (i, oj) /\
         rows l !! i = Some lrow /\ identifiers l !! i = Some k /\
         match oj with
         | Some j =>
             exists rrow x,
               rows r !! j = Some rrow /\ identifiers r !! j = Some x /\
               key_match k x = true /\
               cells out
               = cells lrow ++ map (taken_cell promote (rows r) rrow) others
         | None =>
             (forall x, x ∈ identifiers r -> key_match k x = false) /\
             cells out = cells lrow ++ map (fun _ => VNaN) others
         end) /\
    (forall i j lrow rrow k x,
       rows l !! i = Some lrow -> rows r !! j = Some rrow ->
       identifiers l !! i = Some k -> identifiers r !! j = Some x ->
       key_match k x = true ->
       exists n,
         (n, cells lrow ++ map (taken_cell promote (rows r) rrow) others)
         ∈ rows m) /\
    (forall i lrow k,
       rows l !! i = Some lrow -> identifiers l !! i = Some k ->
       (forall x, x ∈ identifiers r -> key_match k x = false) ->
       exists n, (n, cells lrow ++ map (fun _ => VNaN) others) ∈ rows m) /\
    (forall j x,
       identifiers r !! j = Some x ->
       (forall k, k ∈ identifiers l -> key_match k x = false) ->
       forall i, (i, Some j) ∉ ixs) /\
    (promote = true <->
     exists k, k ∈ identifiers l /\
               forall x, x ∈ identifiers r -> key_match k x = false) /\
    (rectangular b = true -> rectangular a = true ->
     forall i j,
       (i, Some j) ∈ ixs <->
       exists v t,
         identifiers b !! i = Some v /\ identifiers a !! j = Some (VStr t) /\
         zfill 5 (py_str v) = zfill 5 t).
Proof using.
  intros Hl Hr Hm. rewrite (joined_merge _ _ _ _ Hl Hr) in Hm.
  apply merge_left_inv in Hm as (kp & Hkp & ->). cbn [rows].
  pose proof (identifiers_length_normalized _ _ Hl) as Hids.
  pose proof (identifiers_length _ _ Hkp) as Hidsr.
  exists kp. split; [done |]. cbn zeta.
  set (others := other_positions kp (length (columns r))).
  set (ixs := join_indexers 0 (identifiers l) (identifiers r)).
  assert (Hentry : forall i oj, (i, oj) ∈ ixs ->
    exists lrow k,
      rows l !! i = Some lrow /\ identifiers l !! i = Some k /\
      match oj with
      | Some j =>
          exists rrow x, rows r !! j = Some rrow /\
            identifiers r !! j = Some x /\ key_match k x = true
      | None => forall x, x ∈ identifiers r -> key_match k x = false
      end).
  { intros i oj (k & _ & Hk & Hoj)%elem_of_join_indexers.
    rewrite Nat.sub_0_r in Hk.
    destruct (lookup_lt_is_Some_2 (rows l) i) as [lrow Hlrow].
    { rewrite <- Hids. by eapply lookup_lt_Some. }
    exists lrow, k. split; [done |]. split; [done |].
    destruct oj as [j |].
    - apply elem_of_match_positions in Hoj as (x & _ & Hx & Hkx).
      rewrite Nat.sub_0_r in Hx.
      destruct (lookup_lt_is_Some_2 (rows r) j) as [rrow Hrrow].
      { rewrite <- Hidsr. by eapply lookup_lt_Some. }
      eauto.
    - by apply match_positions_nil. }
  split.
  { intros q. unfold others, other_positions.
    rewrite list_elem_of_filter, elem_of_seq. lia. }
  split; [apply length_imap |].
  split; [| split; [| split; [| split; [| split]]]].
  - intros n out ([i oj] & Hix & ->)%list_lookup_imap_Some.
    split; [done |].
    destruct (Hentry i oj (list_elem_of_lookup_2 _ _ _ Hix))
      as (lrow & k & Hlrow & Hk & Hoj).
    exists i, oj, lrow, k. do 3 (split; [done |]).
    destruct oj as [j |].
    + destruct Hoj as (rrow & x & Hrrow & Hx & Hkx).
      exists rrow, x. do 3 (split; [done |]).
      by rewrite (merge_row_matched _ _ _ _ _ _ _ _ _ Hlrow Hrrow).
    + split; [done |]. by rewrite (merge_row_unmatched _ _ _ _ _ _ Hlrow).
  - intros i j lrow rrow k x Hlrow Hrrow Hk Hx Hkx.
    assert ((i, Some j) ∈ ixs) as Hin.
    { apply elem_of_join_indexers. exists k. rewrite Nat.sub_0_r.
      split; [lia |]. split; [done |].
      apply elem_of_match_positions. exists x. rewrite Nat.sub_0_r.
      split; [lia | done]. }
    apply list_elem_of_lookup in Hin as [n Hn]. exists n.
    eapply list_elem_of_lookup_2 with (i := n).
    rewrite list_lookup_imap, Hn. simpl.
    by rewrite (merge_row_matched _ _ _ _ _ _ _ _ _ Hlrow Hrrow).
  - intros i lrow k Hlrow Hk Hno.
    assert ((i, None) ∈ ixs) as Hin.
    { apply elem_of_join_indexers. exists k. rewrite Nat.sub_0_r.
      split; [lia |]. split; [done |]. by apply match_positions_nil. }
    apply list_elem_of_lookup in Hin as [n Hn]. exists n.
    eapply list_elem_of_lookup_2 with (i := n).
    rewrite list_lookup_imap, Hn. simpl.
    by rewrite (merge_row_unmatched _ _ _ _ _ _ Hlrow).
  - intros j x Hx Hno i (k & _ & Hk & Hj)%elem_of_join_indexers.
    apply elem_of_match_positions in Hj as (x' & _ & Hx' & Hkx).
    rewrite Nat.sub_0_r in Hx', Hk.
    assert (x' = x) as -> by congruence.
    rewrite Hno in Hkx; [done |]. eapply list_elem_of_lookup_2, Hk.
  - apply promotion_iff.
  - intros Hrb Hra i j. unfold ixs.
    apply normalize_counties_inv in Hl as (p & Hp & ->).
    apply normalize_csv_inv in Hr as (q & Hq & ->).
    rewrite (identifiers_normalized (fun v => VStr (zfill 5 (py_str v))))
      by done.
    rewrite (identifiers_normalized (zfill_cell 5)) by done.
    by apply (indexers_pair_iff b a p q).
Qed.

(** ** The identifier column of the merged frame *)

Lemma suffixed_not_GEOID (c sfx : string) :
  String.length sfx = 2 -> sfx <> "ID" -> c +:+ sfx <> "GEOID".
Proof using.
  intros Hlen Hsfx H.
  assert (String.length (c +:+ sfx) = 5) as Hl by (by rewrite H).
  rewrite length_string_app, Hlen in Hl.
  destruct c as [| a1 [| a2 [| a3 [| a4 c']]]]; cbn [String.length] in Hl;
    try lia.
  cbn [String.append] in H. injection H as _ _ _ H. done.
Qed.

Lemma find_column_app_l name xs ys p :
  find_column name xs = Some p -> find_column name (xs ++ ys) = Some p.
Proof using.
  revert p. induction xs as [| c cs IH]; intros p; simpl; [done |].
  destruct (String.eqb c name); [done |].
  destruct (find_column name cs) as [q |]; simpl; [| done].
  intros [= <-]. by rewrite (IH q).
Qed.

Lemma find_column_merged lcols rcols others p :
  find_column "GEOID" lcols = Some p ->
  find_column "GEOID" (merged_columns "GEOID" lcols rcols others) = Some p.
Proof using.
  intros H. unfold merged_columns. apply find_column_app_l.
  revert p H. induction lcols as [| c cs IH]; intros p; simpl; [done |].
  destruct (String.eqb_spec c "GEOID") as [-> | Hne].
  - intros [= <-]. rewrite bool_decide_eq_false_2 by (intros [? _]; done).
    done.
  - assert (String.eqb
              (if bool_decide (c <> "GEOID" /\ c ∈ rcols) then c +:+ "_x" else c)
              "GEOID" = false) as ->.
    { apply String.eqb_neq. case_bool_decide; [| done].
      by apply suffixed_not_GEOID. }
    destruct (find_column "GEOID" cs) as [q |]; simpl; [| done].
    intros [= <-]. by rewrite (IH q).
Qed.

(** Every row of the merged frame extends a normalized boundary row, and
    its identifier is the zero-filled string form of the identifier of the
    boundary row it comes from. *)
Lemma joined_row_origin b a l m :
  normalize_counties b = Ok l ->
  joined b a = Ok m ->
  rectangular b = true ->
  exists p,
    find_column "GEOID" (columns b) = Some p /\
    find_column "GEOID" (columns m) = Some p /\
    forall out, out ∈ rows m ->
      exists i brow lrow,
        rows b !! i = Some brow /\ rows l !! i = Some lrow /\
        extends out lrow /\
        cell (cells out) p = VStr (zfill 5 (py_str (cell (cells brow) p))).
Proof using.
  intros Hl Hm Hrect. apply joined_inv in Hm as (l' & r & Hl' & Hr & Hm).
  assert (l' = l) as -> by congruence. clear Hl'.
  pose proof (identifiers_length_normalized _ _ Hl) as Hids.
  apply normalize_counties_inv in Hl as (p & Hp & ->).
  apply merge_left_inv in Hm as (kp & Hkp & ->). cbn [rows columns] in *.
  exists p. split; [done |]. split; [by apply find_column_merged |].
  intros out (n & [i oj] & -> & Hix)%elem_of_lookup_imap_1.
  pose proof (list_elem_of_lookup_2 _ _ _ Hix) as Hin.
  match type of Hin with
  | _ ∈ join_indexers ?i0 ?lk ?rk =>
      pose proof (join_indexers_bounds i0 lk rk) as Hb
  end.
  rewrite Forall_forall in Hb. specialize (Hb _ Hin). simpl in Hb.
  rewrite Hids, length_map in Hb.
  destruct (lookup_lt_is_Some_2 (rows b) i) as [brow Hbrow]; [lia |].
  exists i, brow, (label brow,
                   <[p := VStr (zfill 5 (py_str (cell (cells brow) p)))]> (cells brow)).
  assert (p < length (cells brow)) as Hlt.
  { apply rectangular_Forall in Hrect. rewrite Forall_forall in Hrect.
    rewrite (Hrect brow) by (eapply list_elem_of_lookup_2, Hbrow).
    by eapply find_column_lt. }
  split; [done |]. split; [by rewrite list_lookup_fmap, Hbrow |].
  split.
  - apply merge_row_extends. by rewrite list_lookup_fmap, Hbrow.
  - unfold merge_row. simpl. rewrite list_lookup_fmap, Hbrow. simpl.
    rewrite cell_app_l by (by rewrite length_insert).
    by apply cell_insert.
Qed.

(** ** Normalization of the identifiers *)

(** C3, amended: normalization replaces the identifier of every boundary
    record by its string form filled with ['0'] characters to five
    characters, and fills the identifier strings of the attribute records
    in the same way (an attribute identifier that is not a string becomes
    [NaN]); no other cell changes.  The zeros are put on the left of the
    string, behind a leading ['+'] or ['-'] when there is one; a string of
    five or more characters is left as it is. *)
Theorem normalization_zero_fills :
  (forall s, 5 <= String.length s -> zfill 5 s = s) /\
  (forall s, String.length s < 5 ->
     String.length (zfill 5 s) = 5 /\
     match s with
     | String c rest =>
         if is_sign c
         then zfill 5 s = String c (zeros (5 - String.length s) +:+ rest)
         else zfill 5 s = zeros (5 - String.length s) +:+ s
     | EmptyString => zfill 5 s = "00000"
     end) /\
  (forall b l, normalize_counties b = Ok l ->
     exists p,
       find_column "GEOID" (columns b) = Some p /\
       columns l = columns b /\
       rows l = map (fun x => (label x,
                       <[p := VStr (zfill 5 (py_str (cell (cells x) p)))]> (cells x)))
                    (rows b) /\
       (rectangular b = true ->
        identifiers l = map (fun v => VStr (zfill 5 (py_str v))) (identifiers b))) /\
  (forall a r, normalize_csv a = Ok r ->
     exists p,
       find_column "GEOID" (columns a) = Some p /\
       columns r = columns a /\
       rows r = map (fun x => (label x,
                       <[p := zfill_cell 5 (cell (cells x) p)]> (cells x)))
                    (rows a) /\
       (rectangular a = true ->
        identifiers r = map (zfill_cell 5) (identifiers a))).
Proof using.
  split; [intros s; apply zfill_long |].
  split; [| split].
  - intros s Hlen. split; [rewrite length_zfill; lia |].
    destruct s as [| c rest]; [done |].
    destruct (is_sign c) eqn:Hc.
    + by apply zfill_short_signed.
    + apply zfill_short_unsigned; [done |]. by intros ?? [= <- <-].
  - intros b l (p & Hp & ->)%normalize_counties_inv. exists p.
    repeat split; [done |]. intros Hrect.
    by apply (identifiers_normalized (fun v => VStr (zfill 5 (py_str v)))).
  - intros a r (p & Hp & ->)%normalize_csv_inv. exists p.
    repeat split; [done |]. intros Hrect.
    by apply (identifiers_normalized (zfill_cell 5)).
Qed.

(** C4, amended: every identifier of the merged output is a string of at
    least five characters: the string form of the identifier of a
    boundary record, zero-filled; it has exactly five characters when
    that string form has at most five.  The boundary frame is taken to be
    rectangular, as every decoded frame is. *)
Theorem output_identifiers_zero_filled b a m :
  joined b a = Ok m ->
  rectangular b = true ->
  exists ids,
    getitem m "GEOID" = Ok ids /\
    length ids = length (rows m) /\
    Forall (fun v => exists v0,
              v0 ∈ identifiers b /\
              v = VStr (zfill 5 (py_str v0)) /\
              5 <= String.length (zfill 5 (py_str v0)) /\
              (String.length (py_str v0) <= 5 ->
               String.length (zfill 5 (py_str v0)) = 5)) ids.
Proof using.
  intros Hm Hrect.
  destruct (joined_inv _ _ _ Hm) as (l & r & Hl & _ & _).
  destruct (joined_row_origin _ _ _ _ Hl Hm Hrect) as (p & Hpb & Hpm & Horigin).
  exists (map (fun x => cell (cells x) p) (rows m)).
  split; [by apply getitem_Ok |]. split; [by rewrite length_map |].
  apply Forall_fmap, Forall_forall. intros out Hout. simpl.
  destruct (Horigin out Hout) as (i & brow & lrow & Hbrow & _ & _ & Hcell).
  exists (cell (cells brow) p). split.
  { rewrite (identifiers_rows _ _ Hpb). apply list_elem_of_fmap.
    exists brow. split; [done |]. eapply list_elem_of_lookup_2, Hbrow. }
  split; [done |]. rewrite length_zfill. lia.
Qed.

(** ** The report *)

Lemma mask_rows_map (f : row -> bool) rs :
  mask_rows rs (map (fun r => Some (f r)) rs) = Ok (filter (fun r => f r) rs).
Proof using.
  induction rs as [| r rs IH]; simpl; [done |]. rewrite IH. simpl.
  destruct (f r) eqn:Hf.
  - by rewrite filter_cons_True by (simpl; rewrite Hf; exact I).
  - by rewrite filter_cons_False by (simpl; rewrite Hf; exact id).
Qed.

Lemma invert_map (f : row -> bool) rs :
  invert (map (fun r => Some (f r)) rs)
  = Ok (map (fun r => Some (negb (f r))) rs).
Proof using. induction rs as [| r rs IH]; simpl; [done |]. by rewrite IH. Qed.

Lemma rows_with_missing_Ok m :
  rows_with_missing m
  = Ok (mkFrame (columns m) (filter (fun r => existsb isna (cells r)) (rows m))).
Proof using.
  unfold rows_with_missing, boolean_index, any_isna.
  by rewrite mask_rows_map.
Qed.

Lemma str_startswith_strings p rs :
  Forall (fun r => exists s, cell (cells r) p = VStr s) rs ->
  str_startswith "72" (map (fun r => cell (cells r) p) rs)
  = map (fun r => Some (starts_with_72 p r)) rs.
Proof using.
  intros H. unfold str_startswith. rewrite map_map.
  apply map_ext_Forall. eapply Forall_impl; [exact H |].
  intros r [s Hs]. unfold starts_with_72. simpl. by rewrite Hs.
Qed.

Lemma non_mainland_of_Ok md p :
  find_column "GEOID" (columns md) = Some p ->
  Forall (fun r => exists s, cell (cells r) p = VStr s) (rows md) ->
  non_mainland_of md
  = Ok (mkFrame (columns md) (filter (fun r => starts_with_72 p r) (rows md))).
Proof using.
  intros Hp Hstr. unfold non_mainland_of, boolean_index.
  rewrite (getitem_Ok _ _ _ Hp). simpl.
  by rewrite str_startswith_strings, mask_rows_map.
Qed.

Lemma mainland_of_Ok md p :
  find_column "GEOID" (columns md) = Some p ->
  Forall (fun r => exists s, cell (cells r) p = VStr s) (rows md) ->
  mainland_of md
  = Ok (mkFrame (columns md) (filter (fun r => ¬ starts_with_72 p r) (rows md))).
Proof using.
  intros Hp Hstr. unfold mainland_of, boolean_index.
  rewrite (getitem_Ok _ _ _ Hp). simpl.
  rewrite str_startswith_strings, invert_map by done. simpl.
  rewrite (mask_rows_map (fun r => negb (starts_with_72 p r))). simpl.
  do 2 f_equal. apply list_filter_iff. intros r. apply negb_True.
Qed.

Lemma merged_rows_NoDup l r m : merge_left l r "GEOID" = Ok m -> NoDup (rows m).
Proof using.
  intros (kp & _ & ->)%merge_left_inv. cbn [rows].
  apply (NoDup_fmap_1 label). rewrite fmap_imap.
  rewrite (imap_ext _ (fun j _ => id j)) by done.
  rewrite imap_seq_0, list_fmap_id. apply NoDup_seq.
Qed.

(** C5: on the result of the join (of a rectangular boundary frame) lines
    13 to 15 raise nothing; the report keeps exactly the merged rows that
    have a missing value in some cell, whatever the column, and splits
    them by the ["72"] test on the identifier; the two groups have no row
    in common and together they are the rows with a missing value, each
    once. *)
Theorem missing_data_partition b a m :
  joined b a = Ok m ->
  rectangular b = true ->
  exists p md ml nm,
    find_column "GEOID" (columns m) = Some p /\
    rows_with_missing m = Ok md /\
    mainland_of md = Ok ml /\
    non_mainland_of md = Ok nm /\
    rows md = filter (fun r => existsb isna (cells r)) (rows m) /\
    rows nm = filter (fun r => starts_with_72 p r) (rows md) /\
    rows ml = filter (fun r => ¬ starts_with_72 p r) (rows md) /\
    rows nm ++ rows ml ≡ₚ rows md /\
    (forall r, r ∈ rows ml -> r ∉ rows nm) /\
    NoDup (rows md).
Proof using.
  intros Hm Hrect.
  destruct (joined_inv _ _ _ Hm) as (l & r & Hl & _ & Hmerge).
  destruct (joined_row_origin _ _ _ _ Hl Hm Hrect) as (p & _ & Hp & Horigin).
  set (md := mkFrame (columns m)
               (filter (fun r => existsb isna (cells r)) (rows m))).
  assert (Forall (fun r => exists s, cell (cells r) p = VStr s) (rows md)) as Hstr.
  { apply Forall_forall. intros out [_ Hout]%list_elem_of_filter.
    destruct (Horigin out Hout) as (i & brow & lrow & _ & _ & _ & Hcell).
    eauto. }
  exists p, md,
    (mkFrame (columns md) (filter (fun r => ¬ starts_with_72 p r) (rows md))),
    (mkFrame (columns md) (filter (fun r => starts_with_72 p r) (rows md))).
  split; [done |]. split; [apply rows_with_missing_Ok |].
  split; [by apply mainland_of_Ok |]. split; [by apply non_mainland_of_Ok |].
  split; [done |]. split; [done |]. split; [done |]. cbn [rows].
  split; [apply filter_app_complement |]. split.
  - intros x [Hx _]%list_elem_of_filter [Hx' _]%list_elem_of_filter. done.
  - apply NoDup_filter. by eapply merged_rows_NoDup.
Qed.

(** C10, amended: the ["72"] test is made on the normalized identifier.
    An identifier string of fewer than five characters is zero-filled, so
    it begins with ['0'] or with the sign it began with, and fails the
    test; every row reported as non-mainland comes from a boundary record
    whose identifier string has at least five characters. *)
Theorem short_identifier_never_non_mainland :
  (forall s, String.length s < 5 ->
     String.prefix "72" (zfill 5 s) = false /\
     exists c rest, zfill 5 s = String c rest /\
       (c = "0"%char \/ (is_sign c = true /\ exists rest0, s = String c rest0))) /\
  (forall b a l m md nm,
     normalize_counties b = Ok l ->
     joined b a = Ok m ->
     rectangular b = true ->
     rows_with_missing m = Ok md ->
     non_mainland_of md = Ok nm ->
     exists p,
       find_column "GEOID" (columns b) = Some p /\
       forall out, out ∈ rows nm ->
         exists i brow lrow,
           rows b !! i = Some brow /\ rows l !! i = Some lrow /\
           extends out lrow /\
           cell (cells out) p = VStr (zfill 5 (py_str (cell (cells brow) p))) /\
           String.prefix "72" (zfill 5 (py_str (cell (cells brow) p))) = true /\
           5 <= String.length (py_str (cell (cells brow) p))).
Proof using.
  split.
  { intros s Hlen. split; [by apply zfill_short_not_72 |].
    by apply zfill_short_head. }
  intros b a l m md nm Hl Hm Hrect Hmd Hnm.
  destruct (joined_row_origin _ _ _ _ Hl Hm Hrect) as (p & Hpb & Hp & Horigin).
  rewrite rows_with_missing_Ok in Hmd. injection Hmd as <-.
  rewrite (non_mainland_of_Ok _ p) in Hnm; [| done |].
  2:{ apply Forall_forall. intros out [_ Hout]%list_elem_of_filter.
      destruct (Horigin out Hout) as (i & brow & lrow & _ & _ & _ & Hcell).
      eauto. }
  injection Hnm as <-. cbn [rows]. exists p. split; [done |].
  intros out [H72 [_ Hout]%list_elem_of_filter]%list_elem_of_filter.
  destruct (Horigin out Hout) as (i & brow & lrow & Hb & Hlr & Hext & Hcell).
  exists i, brow, lrow. do 4 (split; [done |]).
  unfold starts_with_72 in H72. rewrite Hcell in H72.
  apply Is_true_true in H72. split; [done |].
  destruct (Nat.le_gt_cases 5 (String.length (py_str (cell (cells brow) p))))
    as [Hge | Hlt]; [done |].
  rewrite zfill_short_not_72 in H72 by done. done.
Qed.

(** ** Running the script *)

Lemma run_app p q s :
  run (p ++ q) s
  = match run p s with
    | Done s' => run q s'
    | Raised e s' => Raised e s'
    end.
Proof.
  revert s. induction p as [| c p IH]; intros s; simpl; [done |].
  destruct (c s); [apply IH | done].
Qed.

(** An exception raised by a prefix of a program ends the whole run. *)
Lemma run_prefix_raised p q s e s' :
  run p s = Raised e s' -> run (p ++ q) s = Raised e s'.
Proof. intros H. by rewrite run_app, H. Qed.

Lemma assign_inv set rhs s :
  match assign set rhs s with
  | Done s' => exists df, rhs s = Ok df /\ s' = mkState (set df (py s)) (os s)
  | Raised e s' => rhs s = Err e /\ s' = s
  end.
Proof. unfold assign. destruct (rhs s); eauto. Qed.

Lemma print_inv msg s :
  match print msg s with
  | Done s' =>
      exists m, msg s = Ok m /\ py s' = py s /\
        files (os s') = files (os s) /\ readonly (os s') = readonly (os s) /\
        stdout (os s') = stdout (os s) ++ [m]
  | Raised e s' => msg s = Err e /\ s' = s
  end.
Proof. unfold print. destruct (msg s); simpl; eauto 10. Qed.

Lemma to_file_inv df path s :
  match to_file df path s with
  | Done s' =>
      exists txt, encode_geojson (df s) = Some txt /\ (path ∉ readonly (os s)) /\
        py s' = py s /\ files (os s') = <[path := txt]> (files (os s)) /\
        readonly (os s') = readonly (os s) /\ stdout (os s') = stdout (os s)
  | Raised e s' => s' = s
  end.
Proof.
  unfold to_file. destruct (encode_geojson (df s)) as [txt |]; [| done].
  case_bool_decide; [done |]. simpl. eauto 10.
Qed.

(** Lines 8 to 12 compute [joined] of the two decoded files and touch
    nothing outside the variables. *)
Lemma run_loader_inv s :
  match run loader_normalizer_merger s with
  | Done s1 =>
      exists b a,
        gpd_read_file geojson_path (os s) = Ok b /\
        pd_read_csv csv_path ["GEOID"] (os s) = Ok a /\
        joined b a = Ok (merged_data (py s1)) /\ os s1 = os s
  | Raised e s1 => os s1 = os s
  end.
Proof.
  unfold loader_normalizer_merger, run, line_8, line_9, line_10, line_11,
    line_12, assign. cbn [py os counties csv_data set_counties set_csv_data].
  destruct (gpd_read_file geojson_path (os s)) as [b | e]; [| done].
  cbn [py os counties csv_data set_counties set_csv_data].
  destruct (normalize_counties b) as [l | e] eqn:Hl; [| done].
  cbn [py os counties csv_data set_counties set_csv_data].
  destruct (pd_read_csv csv_path ["GEOID"] (os s)) as [a | e]; [| done].
  cbn [py os counties csv_data set_counties set_csv_data].
  destruct (normalize_csv a) as [r | e] eqn:Hr; [| done].
  cbn [py os counties csv_data set_counties set_csv_data].
  destruct (merge_left l r "GEOID") as [m | e] eqn:Hm; [| done].
  exists b, a. cbn. by rewrite (joined_merge _ _ _ _ Hl Hr).
Qed.


(** Lines 13 to 17 assign the three report variables and print; they
    leave the other variables, the files and the unwritable paths as they
    were, whether they complete or raise. *)
Lemma run_reporter_frame s :
  merged_data (py (final (run reporter s))) = merged_data (py s) /\
  counties (py (final (run reporter s))) = counties (py s) /\
  csv_data (py (final (run reporter s))) = csv_data (py s) /\
  files (os (final (run reporter s))) = files (os s) /\
  readonly (os (final (run reporter s))) = readonly (os s).
Proof.
  unfold reporter, run, line_13, line_14, line_15, line_16, line_17,
    assign, print.
  repeat match goal with
         | |- context [match ?x with Ok _ => _ | Err _ => _ end] =>
             destruct x; cbn
         end; done.
Qed.

Lemma run_reporter_Done s s' :
  run reporter s = Done s' ->
  rows_with_missing (merged_data (py s)) = Ok (missing_data (py s')) /\
  mainland_of (missing_data (py s')) = Ok (missing_mainland (py s')) /\
  non_mainland_of (missing_data (py s')) = Ok (missing_non_mainland (py s')).
Proof.
  unfold reporter, run, line_13, line_14, line_15, line_16, line_17,
    assign, print.
  destruct (rows_with_missing (merged_data (py s))) as [md | e]; [| done].
  cbn -[select_columns mainland_of non_mainland_of].
  destruct (mainland_of md) as [ml | e] eqn:Hml; [| done].
  cbn -[select_columns mainland_of non_mainland_of].
  destruct (non_mainland_of md) as [nm | e] eqn:Hnm; [| done].
  cbn -[select_columns mainland_of non_mainland_of].
  destruct (select_columns ml ["GEOID"; "NAME"]); [| done].
  cbn -[select_columns mainland_of non_mainland_of].
  destruct (select_columns nm ["GEOID"; "NAME"]); [| done].
  cbn -[select_columns mainland_of non_mainland_of].
  by intros [= <-].
Qed.

Lemma run_writer_inv s :
  match run writer s with
  | Done s' =>
      exists txt,
        encode_geojson (merged_data (py s)) = Some txt /\
        py s' = py s /\
        files (os s') = <[output_geojson_path := txt]> (files (os s)) /\
        readonly (os s') = readonly (os s)
  | Raised e s' => s' = s
  end.
Proof.
  unfold writer, run, line_19, line_20, print.
  pose proof (to_file_inv (fun s => merged_data (py s)) output_geojson_path s) as H.
  destruct (to_file _ output_geojson_path s) as [s1 | e s1]; [| done].
  destruct H as (txt & Henc & _ & Hpy & Hfiles & Hro & _).
  exists txt. cbn. done.
Qed.

(** A completed run: both files were decoded, the join, the report and
    the encoding succeeded, and the output file holds the encoding of the
    merged frame. *)
Lemma run_script_Done s s' :
  run script s = Done s' ->
  exists b a m txt,
    gpd_read_file geojson_path (os s) = Ok b /\
    pd_read_csv csv_path ["GEOID"] (os s) = Ok a /\
    joined b a = Ok m /\
    merged_data (py s') = m /\
    rows_with_missing m = Ok (missing_data (py s')) /\
    encode_geojson m = Some txt /\
    files (os s') = <[output_geojson_path := txt]> (files (os s)) /\
    readonly (os s') = readonly (os s).
Proof.
  unfold script. rewrite !run_app.
  pose proof (run_loader_inv s) as Hload.
  destruct (run loader_normalizer_merger s) as [s1 | e s1]; [| done].
  destruct Hload as (b & a & Hb & Ha & Hm & Hos). rewrite run_app.
  pose proof (run_reporter_frame s1) as (Hmd & _ & _ & Hfiles & Hro).
  pose proof (run_reporter_Done s1) as Hrep.
  destruct (run reporter s1) as [s2 | e s2]; [| done].
  destruct (Hrep s2 eq_refl) as (Hmiss & _). cbn [final] in *.
  pose proof (run_writer_inv s2) as Hw.
  destruct (run writer s2) as [s3 | e s3]; [| done].
  intros [= <-]. destruct Hw as (txt & Henc & Hpy & Hf & Hr).
  exists b, a, (merged_data (py s1)), txt.
  rewrite Hpy, Hmd, Hf, Hfiles, Hr, Hro, Hos. rewrite Hmd in Henc.
  done.
Qed.

(** ** Report, output file and errors *)

(** C6: the report is observational.  Lines 13 to 17 change neither the
    merged frame nor the two loaded frames nor any file, however they
    end; and a completed run leaves in the output file the encoding of
    the whole merged frame, the one the join produced, which contains
    every row the report flagged. *)
Theorem report_is_observational :
  (forall s,
     merged_data (py (final (run reporter s))) = merged_data (py s) /\
     counties (py (final (run reporter s))) = counties (py s) /\
     csv_data (py (final (run reporter s))) = csv_data (py s) /\
     files (os (final (run reporter s))) = files (os s)) /\
  (forall s s',
     run script s = Done s' ->
     exists b a m txt,
       gpd_read_file geojson_path (os s) = Ok b /\
       pd_read_csv csv_path ["GEOID"] (os s) = Ok a /\
       joined b a = Ok m /\
       merged_data (py s') = m /\
       encode_geojson m = Some txt /\
       files (os s') = <[output_geojson_path := txt]> (files (os s)) /\
       (forall r, r ∈ rows (missing_data (py s')) -> r ∈ rows m)).
Proof.
  split.
  - intros s. pose proof (run_reporter_frame s) as (? & ? & ? & ? & _). done.
  - intros s s' Hrun.
    destruct (run_script_Done _ _ Hrun)
      as (b & a & m & txt & Hb & Ha & Hm & Hmd & Hmiss & Henc & Hfiles & _).
    exists b, a, m, txt. do 6 (split; [done |]).
    rewrite rows_with_missing_Ok in Hmiss. injection Hmiss as Hmiss.
    rewrite <- Hmiss. cbn [rows]. by intros r [_ Hr]%list_elem_of_filter.
Qed.

(** C7: no exception is caught, and nothing is written before the join
    has completed.  An exception raised at any point of the script ends
    the run with that exception; when it is raised while loading,
    normalizing or merging, the files and the printed output are as they
    were; no run that raises changes a file; and a run that completes has
    completed the join and written the encoding of its result. *)
Theorem errors_abort_without_output s :
  (forall p q e s1,
     script = p ++ q -> run p s = Raised e s1 -> run script s = Raised e s1) /\
  (forall e s1,
     run loader_normalizer_merger s = Raised e s1 ->
     run script s = Raised e s1 /\ os s1 = os s) /\
  (forall e s', run script s = Raised e s' -> files (os s') = files (os s)) /\
  (forall s',
     run script s = Done s' ->
     exists s1 txt,
       run loader_normalizer_merger s = Done s1 /\
       files (os s1) = files (os s) /\
       encode_geojson (merged_data (py s1)) = Some txt /\
       files (os s') = <[output_geojson_path := txt]> (files (os s))).
Proof.
  split; [| split; [| split]].
  - intros p q e s1 -> Hp. by apply run_prefix_raised.
  - intros e s1 Hload. split; [by apply run_prefix_raised |].
    pose proof (run_loader_inv s) as H. by rewrite Hload in H.
  - intros e s'. unfold script. rewrite run_app.
    pose proof (run_loader_inv s) as Hload.
    destruct (run loader_normalizer_merger s) as [s1 | e1 s1].
    + destruct Hload as (_ & _ & _ & _ & _ & Hos). rewrite run_app.
      pose proof (run_reporter_frame s1) as (_ & _ & _ & Hfiles & _).
      destruct (run reporter s1) as [s2 | e2 s2]; cbn [final] in Hfiles.
      * pose proof (run_writer_inv s2) as Hw.
        destruct (run writer s2) as [s3 | e3 s3]; [done |].
        intros [= _ <-]. by rewrite Hw, Hfiles, Hos.
      * intros [= _ <-]. by rewrite Hfiles, Hos.
    + intros [= _ <-]. by rewrite Hload.
  - intros s'. unfold script. rewrite run_app.
    pose proof (run_loader_inv s) as Hload.
    destruct (run loader_normalizer_merger s) as [s1 | e1 s1]; [| done].
    destruct Hload as (_ & _ & _ & _ & _ & Hos). rewrite run_app.
    pose proof (run_reporter_frame s1) as (Hmd & _ & _ & Hfiles & _).
    destruct (run reporter s1) as [s2 | e2 s2]; [| done]. cbn [final] in *.
    pose proof (run_writer_inv s2) as Hw.
    destruct (run writer s2) as [s3 | e3 s3]; [| done].
    intros [= <-]. destruct Hw as (txt & Henc & _ & Hf & _).
    exists s1, txt. split; [done |]. split; [by rewrite Hos |].
    split; [by rewrite <- Hmd |]. by rewrite Hf, Hfiles, Hos.
Qed.

(** ** Determinism *)

Lemma same_outcome_app (P Q : state -> state -> Prop) p q s1 s2 :
  same_outcome P (run p s1) (run p s2) ->
  (forall a b, P a b -> same_outcome Q (run q a) (run q b)) ->
  same_outcome Q (run (p ++ q) s1) (run (p ++ q) s2).
Proof.
  intros Hp Hq. rewrite !run_app.
  destruct (run p s1), (run p s2); simpl in *; auto; done.
Qed.

Lemma run_loader_same s1 s2 :
  files (os s1) !! geojson_path = files (os s2) !! geojson_path ->
  files (os s1) !! csv_path = files (os s2) !! csv_path ->
  same_outcome
    (fun a b => merged_data (py a) = merged_data (py b) /\
                os a = os s1 /\ os b = os s2)
    (run loader_normalizer_merger s1) (run loader_normalizer_merger s2).
Proof.
  intros Hgeo Hcsv.
  unfold loader_normalizer_merger, run, line_8, line_9, line_10, line_11,
    line_12, assign, gpd_read_file, pd_read_csv.
  cbn [py os counties csv_data set_counties set_csv_data]. rewrite Hgeo.
  destruct (files (os s2) !! geojson_path) as [t |]; [| done].
  destruct (decode_geojson t) as [b |]; [| done].
  cbn [py os counties csv_data set_counties set_csv_data].
  destruct (normalize_counties b) as [l | e]; [| done].
  cbn [py os counties csv_data set_counties set_csv_data]. rewrite Hcsv.
  destruct (files (os s2) !! csv_path) as [t' |]; [| done].
  destruct (decode_csv ["GEOID"] t') as [a |]; [| done].
  cbn [py os counties csv_data set_counties set_csv_data].
  destruct (normalize_csv a) as [r | e]; [| done].
  cbn [py os counties csv_data set_counties set_csv_data].
  destruct (merge_left l r "GEOID") as [m | e]; [| done].
  done.
Qed.

Lemma run_reporter_same s1 s2 :
  merged_data (py s1) = merged_data (py s2) ->
  same_outcome (fun _ _ => True) (run reporter s1) (run reporter s2).
Proof.
  intros Hm.
  unfold reporter, run, line_13, line_14, line_15, line_16, line_17,
    assign, print. rewrite Hm.
  destruct (rows_with_missing (merged_data (py s2))) as [md | e]; [| done].
  cbn -[select_columns mainland_of non_mainland_of].
  destruct (mainland_of md) as [ml | e]; [| done].
  cbn -[select_columns mainland_of non_mainland_of].
  destruct (non_mainland_of md) as [nm | e]; [| done].
  cbn -[select_columns mainland_of non_mainland_of].
  destruct (select_columns ml ["GEOID"; "NAME"]); [| done].
  cbn -[select_columns mainland_of non_mainland_of].
  destruct (select_columns nm ["GEOID"; "NAME"]); [| done].
  done.
Qed.

Lemma run_writer_same s1 s2 :
  merged_data (py s1) = merged_data (py s2) ->
  readonly (os s1) = readonly (os s2) ->
  same_outcome
    (fun a b => merged_data (py a) = merged_data (py b) /\
                files (os a) !! output_geojson_path
                = files (os b) !! output_geojson_path)
    (run writer s1) (run writer s2).
Proof.
  intros Hm Hro. unfold writer, run, line_19, line_20, print, to_file.
  rewrite Hm, Hro.
  destruct (encode_geojson (merged_data (py s2))) as [txt |]; [| done].
  case_bool_decide; [done |]. cbn. by rewrite Hm, !lookup_insert_eq.
Qed.

(** C8: the pipeline is deterministic.  Two runs that start with the same
    two input files end the join alike, with the same merged frame (same
    columns, same rows, same order) or the same exception, whatever else
    the two starting states hold; when the same paths are writable, the
    whole runs end alike, with the same merged frame and the same output
    file; and running the script again after a completed run ends in the
    same way. *)
Theorem pipeline_deterministic s1 s2 :
  files (os s1) !! geojson_path = files (os s2) !! geojson_path ->
  files (os s1) !! csv_path = files (os s2) !! csv_path ->
  same_outcome (fun a b => merged_data (py a) = merged_data (py b))
    (run loader_normalizer_merger s1) (run loader_normalizer_merger s2) /\
  (readonly (os s1) = readonly (os s2) ->
   same_outcome
     (fun a b => merged_data (py a) = merged_data (py b) /\
                 files (os a) !! output_geojson_path
                 = files (os b) !! output_geojson_path)
     (run script s1) (run script s2)) /\
  (forall s1', run script s1 = Done s1' ->
   same_outcome
     (fun a b => merged_data (py a) = merged_data (py b) /\
                 files (os a) !! output_geojson_path
                 = files (os b) !! output_geojson_path)
     (run script s1) (run script s1')).
Proof.
  intros Hgeo Hcsv.
  assert (Hfull : forall t1 t2,
    files (os t1) !! geojson_path = files (os t2) !! geojson_path ->
    files (os t1) !! csv_path = files (os t2) !! csv_path ->
    readonly (os t1) = readonly (os t2) ->
    same_outcome
      (fun a b => merged_data (py a) = merged_data (py b) /\
                  files (os a) !! output_geojson_path
                  = files (os b) !! output_geojson_path)
      (run script t1) (run script t2)).
  { intros t1 t2 Hg Hc Hro. unfold script.
    eapply same_outcome_app; [exact (run_loader_same t1 t2 Hg Hc) |].
    intros a b (Hm & Ha & Hb).
    eapply (same_outcome_app
              (fun a' b' => merged_data (py a') = merged_data (py b') /\
                            readonly (os a') = readonly (os b'))).
    - pose proof (run_reporter_same a b Hm) as Hsame.
      pose proof (run_reporter_frame a) as (Hma & _ & _ & _ & Hra).
      pose proof (run_reporter_frame b) as (Hmb & _ & _ & _ & Hrb).
      destruct (run reporter a), (run reporter b); cbn [final] in *;
        simpl in *; try done.
      split; congruence.
    - intros a' b' [Hm' Hro']. by apply run_writer_same. }
  split; [| split].
  - pose proof (run_loader_same s1 s2 Hgeo Hcsv) as H.
    destruct (run loader_normalizer_merger s1),
      (run loader_normalizer_merger s2); simpl in *; try done.
    by destruct H.
  - by apply Hfull.
  - intros s1' Hrun.
    destruct (run_script_Done _ _ Hrun)
      as (_ & _ & _ & txt & _ & _ & _ & _ & _ & _ & Hfiles & Hro).
    apply Hfull; [| | done].
    + by rewrite Hfiles, lookup_insert_ne.
    + by rewrite Hfiles, lookup_insert_ne.
Qed.

(** ** Shape of the frames *)

Lemma length_filter_other a kp n :
  length (filter (fun p => p ≠ kp) (seq a n))
  = if bool_decide (a <= kp < a + n) then n - 1 else n.
Proof using.
  revert a. induction n as [| n IH]; intros a.
  - simpl. by case_bool_decide.
  - cbn [seq]. rewrite filter_cons. destruct (decide (a ≠ kp)) as [Hne | Heq].
    + cbn [length]. rewrite IH. repeat case_bool_decide; lia.
    + apply dec_stable in Heq as <-. rewrite IH.
      repeat case_bool_decide; lia.
Qed.

Lemma length_other_positions kp n :
  kp < n -> S (length (other_positions kp n)) = n.
Proof using.
  intros H. unfold other_positions. rewrite length_filter_other.
  case_bool_decide; lia.
Qed.

Lemma rectangular_normalized (h : value -> value) df p :
  rectangular df = true ->
  rectangular
    (mkFrame (columns df)
       (map (fun r => (label r, <[p := h (cell (cells r) p)]> (cells r))) (rows df)))
  = true.
Proof using.
  rewrite !rectangular_Forall. cbn [rows columns]. intros H.
  apply Forall_fmap. eapply Forall_impl; [exact H |].
  intros r Hr. simpl. by rewrite length_insert.
Qed.

Lemma merge_left_key_found l r m :
  merge_left l r "GEOID" = Ok m ->
  exists lp, find_column "GEOID" (columns l) = Some lp.
Proof using.
  unfold merge_left, getitem.
  destruct (find_column "GEOID" (columns l)) as [lp |]; [eauto | done].
Qed.

Lemma merge_left_rectangular l r m :
  merge_left l r "GEOID" = Ok m ->
  rectangular l = true ->
  rectangular m = true /\
  S (length (columns m)) = length (columns l) + length (columns r).
Proof using.
  intros Hm Hrect.
  destruct (merge_left_key_found _ _ _ Hm) as [lp Hlp].
  pose proof (identifiers_length _ _ Hlp) as Hids.
  apply merge_left_inv in Hm as (kp & Hkp & ->).
  pose proof (length_other_positions kp _ (find_column_lt _ _ _ Hkp)) as Hothers.
  assert (length (merged_columns "GEOID" (columns l) (columns r)
                    (other_positions kp (length (columns r))))
          = length (columns l) + length (other_positions kp (length (columns r))))
    as Hcols.
  { unfold merged_columns. by rewrite length_app, !length_map. }
  split; [| cbn [columns]; lia].
  apply rectangular_Forall. cbn [rows columns]. rewrite Hcols.
  apply Forall_forall.
  intros out (n & [i oj] & -> & Hix)%elem_of_lookup_imap_1.
  pose proof (list_elem_of_lookup_2 _ _ _ Hix) as Hin.
  pose proof (join_indexers_bounds 0 (identifiers l) (identifiers r)) as Hb.
  rewrite Forall_forall in Hb. specialize (Hb _ Hin). simpl in Hb.
  destruct (lookup_lt_is_Some_2 (rows l) i) as [lrow Hlrow]; [lia |].
  apply rectangular_Forall in Hrect. rewrite Forall_forall in Hrect.
  unfold merge_row. simpl. rewrite Hlrow. simpl. rewrite length_app.
  rewrite (Hrect lrow) by (eapply list_elem_of_lookup_2, Hlrow).
  f_equal. destruct (oj ≫= _); by rewrite length_map.
Qed.

(** X10: the merged frame of a rectangular boundary frame is rectangular,
    whatever the shape of the rows of the attribute frame; it has the
    columns of both frames with the identifier once. *)
Theorem merged_frame_rectangular b a m :
  joined b a = Ok m ->
  rectangular b = true ->
  rectangular m = true /\
  S (length (columns m)) = length (columns b) + length (columns a).
Proof using.
  intros Hm Hrect. apply joined_inv in Hm as (l & r & Hl & Hr & Hm).
  apply normalize_counties_inv in Hl as (p & Hp & ->).
  apply normalize_csv_inv in Hr as (q & Hq & ->).
  destruct (merge_left_rectangular _ _ _ Hm) as [H1 H2]; [| done].
  by apply (rectangular_normalized (fun v => VStr (zfill 5 (py_str v)))).
Qed.

(** ** Normalizing twice *)

Lemma zfill_idempotent width s : zfill width (zfill width s) = zfill width s.
Proof using. apply zfill_long. rewrite length_zfill. lia. Qed.

Lemma normalize_counties_eq df :
  normalize_counties df
  = (g ← getitem df "GEOID";
     Ok (setitem df "GEOID" (map (fun v => VStr (zfill 5 (py_str v))) g))).
Proof using.
  unfold normalize_counties, str_zfill, astype_str.
  destruct (getitem df "GEOID"); simpl; [| done]. by rewrite map_map.
Qed.

Lemma normalize_with_idempotent (h : value -> value) df l :
  (forall v, h (h v) = h v) ->
  (g ← getitem df "GEOID"; Ok (setitem df "GEOID" (map h g))) = Ok l ->
  rectangular df = true ->
  (g ← getitem l "GEOID"; Ok (setitem l "GEOID" (map h g))) = Ok l.
Proof using.
  intros Hh (p & Hp & Hl)%normalize_with_inv Hrect.
  assert (find_column "GEOID" (columns l) = Some p) as Hpl by (by rewrite Hl).
  rewrite (getitem_Ok _ _ _ Hpl). simpl. rewrite (setitem_map _ _ _ h Hpl).
  f_equal. rewrite Hl. cbn [rows columns].
  f_equal. rewrite map_map. apply rectangular_Forall in Hrect.
  apply map_ext_Forall. eapply Forall_impl; [exact Hrect |].
  intros r Hr. simpl. f_equal.
  rewrite cell_insert by (rewrite Hr; by eapply find_column_lt).
  by rewrite Hh, list_insert_insert_eq.
Qed.

(** X8: normalization is idempotent.  Zero-filling a zero-filled string
    changes nothing, and normalizing an already normalized (rectangular)
    frame, of boundaries or of attributes, gives the same frame. *)
Theorem normalization_idempotent :
  (forall width s, zfill width (zfill width s) = zfill width s) /\
  (forall b l,
     normalize_counties b = Ok l -> rectangular b = true ->
     normalize_counties l = Ok l) /\
  (forall a r,
     normalize_csv a = Ok r -> rectangular a = true ->
     normalize_csv r = Ok r).
Proof using.
  split; [apply zfill_idempotent |]. split.
  - intros b l Hl Hrect. rewrite normalize_counties_eq in *.
    eapply normalize_with_idempotent; [| exact Hl | exact Hrect].
    intros v. simpl. by rewrite zfill_idempotent.
  - intros a r Hr Hrect.
    eapply (normalize_with_idempotent (zfill_cell 5)); [| exact Hr | exact Hrect].
    intros [| | s | n | n | g]; simpl; [done | done | | done | done | done].
    by rewrite zfill_idempotent.
Qed.

(** ** Missing identifier column *)

(** X1: a frame without identifier column stops the join with [KeyError]
    on ["GEOID"], whichever of the two frames it is; and when the join
    produces a frame, both frames had the column and the merged frame has
    it under the same name. *)
Theorem joined_needs_identifier_column b a :
  (find_column "GEOID" (columns b) = None ->
   joined b a = Err (KeyError "GEOID")) /\
  (find_column "GEOID" (columns a) = None ->
   joined b a = Err (KeyError "GEOID")) /\
  (forall m, joined b a = Ok m ->
     is_Some (find_column "GEOID" (columns b)) /\
     is_Some (find_column "GEOID" (columns a)) /\
     is_Some (find_column "GEOID" (columns m))).
Proof using.
  split; [| split].
  - intros Hb. unfold joined, normalize_counties, getitem. by rewrite Hb.
  - intros Ha. unfold joined, normalize_counties, normalize_csv, getitem.
    rewrite Ha. by destruct (find_column "GEOID" (columns b)).
  - intros m (l & r & Hl & Hr & Hm)%joined_inv.
    apply normalize_counties_inv in Hl as (p & Hp & ->).
    apply normalize_csv_inv in Hr as (q & Hq & ->).
    apply merge_left_inv in Hm as (kp & Hkp & ->). cbn [columns] in *.
    split; [eauto |]. split; [eauto |].
    exists p. by apply find_column_merged.
Qed.

(** ** Which rows are paired *)

Lemma key_match_string s x :
  key_match (VStr s) x = true <-> x = VStr s.
Proof using.
  unfold key_match. simpl. rewrite bool_decide_eq_true. split; congruence.
Qed.

(** X9: the join pairs a boundary row with an attribute row exactly when
    the attribute identifier is a string and the two identifiers have the
    same zero-filled string form; an attribute row whose identifier is not
    a string (a missing one) is paired with no boundary row. *)
Theorem join_pairs_equal_normalized b a l r :
  normalize_counties b = Ok l ->
  normalize_csv a = Ok r ->
  rectangular b = true ->
  rectangular a = true ->
  forall i j,
    (i, Some j) ∈ join_indexers 0 (identifiers l) (identifiers r) <->
    exists v t,
      identifiers b !! i = Some v /\ identifiers a !! j = Some (VStr t) /\
      zfill 5 (py_str v) = zfill 5 t.
Proof using.
  intros (p & Hp & ->)%normalize_counties_inv (q & Hq & ->)%normalize_csv_inv
    Hrb Hra i j.
  rewrite (identifiers_normalized (fun v => VStr (zfill 5 (py_str v)))) by done.
  rewrite (identifiers_normalized (zfill_cell 5)) by done.
  rewrite elem_of_join_indexers. setoid_rewrite elem_of_match_positions.
  rewrite Nat.sub_0_r. setoid_rewrite Nat.sub_0_r.
  setoid_rewrite list_lookup_fmap_Some. split.
  - intros (k & _ & (v & -> & Hv) & x & _ & (y & -> & Hy) & Hm).
    apply key_match_string in Hm. destruct y as [| | t | | |]; try done.
    injection Hm as Hm. eauto 10.
  - intros (v & t & Hv & Ht & Heq).
    exists (VStr (zfill 5 (py_str v))). split; [lia |]. split; [eauto |].
    exists (VStr (zfill 5 t)). split; [lia |]. split.
    + exists (VStr t). done.
    + apply key_match_string. by rewrite Heq.
Qed.

(** ** Which rows are reported *)

Lemma fmap_const_replicate {A B} (x : B) (l : list A) :
  map (fun _ => x) l = replicate (length l) x.
Proof using. induction l; simpl; congruence. Qed.

Lemma existsb_isna_replicate n : existsb isna (replicate n VNaN) = (0 <? n).
Proof using. by destruct n. Qed.

Lemma mask_rows_subset rs mask sel :
  mask_rows rs mask = Ok sel -> forall r, r ∈ sel -> r ∈ rs.
Proof using.
  revert mask sel. induction rs as [| x rs IH]; intros mask sel; simpl.
  - intros [= <-] r Hr. by apply elem_of_nil in Hr.
  - destruct mask as [| [b |] mask]; [| | done].
    + intros [= <-] r Hr. by apply elem_of_nil in Hr.
    + destruct (mask_rows rs mask) as [sel' |] eqn:Hsel; simpl; [| done].
      intros [= <-] r Hr. specialize (IH _ _ Hsel).
      destruct b; [apply elem_of_cons in Hr as [-> | Hr] |];
        set_solver.
Qed.

Lemma mainland_of_subset md ml :
  mainland_of md = Ok ml -> forall r, r ∈ rows ml -> r ∈ rows md.
Proof using.
  unfold mainland_of, boolean_index.
  destruct (getitem md "GEOID") as [g |]; simpl; [| done].
  destruct (invert (str_startswith "72" g)) as [mask |]; simpl; [| done].
  destruct (mask_rows (rows md) mask) as [sel |] eqn:Hsel; simpl; [| done].
  intros [= <-]. by eapply mask_rows_subset.
Qed.

Lemma non_mainland_of_subset md nm :
  non_mainland_of md = Ok nm -> forall r, r ∈ rows nm -> r ∈ rows md.
Proof using.
  unfold non_mainland_of, boolean_index.
  destruct (getitem md "GEOID") as [g |]; simpl; [| done].
  destruct (mask_rows (rows md) (str_startswith "72" g)) as [sel |] eqn:Hsel;
    simpl; [| done].
  intros [= <-]. by eapply mask_rows_subset.
Qed.

(** X11: the rows of the report keep the index of the merged frame: the
    label of every row of [missing_data], and so of the two groups, is
    the position of that very row in [merged_data]. *)
Theorem report_labels_are_positions b a m md :
  joined b a = Ok m ->
  rows_with_missing m = Ok md ->
  (forall r, r ∈ rows md -> rows m !! label r = Some r) /\
  (forall ml r, mainland_of md = Ok ml -> r ∈ rows ml ->
     rows m !! label r = Some r) /\
  (forall nm r, non_mainland_of md = Ok nm -> r ∈ rows nm ->
     rows m !! label r = Some r).
Proof using.
  intros Hm Hmd. apply joined_inv in Hm as (l & r0 & _ & _ & Hm).
  apply merge_left_inv in Hm as (kp & _ & ->).
  rewrite rows_with_missing_Ok in Hmd. injection Hmd as <-. cbn [rows].
  assert (Hpos : forall r,
    r ∈ filter (fun r => existsb isna (cells r))
          (imap (merge_row (rows l)
                   (taken_rows (rows r0)
                      (join_indexers 0 (identifiers l) (identifiers r0)))
                   (other_positions kp (length (columns r0))))
                (join_indexers 0 (identifiers l) (identifiers r0))) ->
    imap (merge_row (rows l)
            (taken_rows (rows r0)
               (join_indexers 0 (identifiers l) (identifiers r0)))
            (other_positions kp (length (columns r0))))
         (join_indexers 0 (identifiers l) (identifiers r0)) !! label r = Some r).
  { intros r [_ (n & ix & -> & Hix)%elem_of_lookup_imap_1]%list_elem_of_filter.
    rewrite list_lookup_imap. cbn. by rewrite Hix. }
  split; [exact Hpos |]. split.
  - intros ml r Hml Hr. apply Hpos. by eapply (mainland_of_subset _ _ Hml).
  - intros nm r Hnm Hr. apply Hpos. by eapply (non_mainland_of_subset _ _ Hnm).
Qed.

(** X12: a boundary record without a matching attribute record has one
    output row, its cells followed by [NaN] once per attribute column
    other than the identifier.  That row is reported as missing data
    exactly when the boundary record itself has a missing cell or the
    attribute table has a column besides the identifier: with an
    attribute table of identifiers only, an unmatched county is not
    reported. *)
Theorem unmatched_reported b a l r m md i lrow k :
  normalize_counties b = Ok l ->
  normalize_csv a = Ok r ->
  joined b a = Ok m ->
  rows_with_missing m = Ok md ->
  rows l !! i = Some lrow ->
  identifiers l !! i = Some k ->
  (forall x, x ∈ identifiers r -> key_match k x = false) ->
  exists n,
    rows m !! n
    = Some (n, cells lrow ++ replicate (length (columns a) - 1) VNaN) /\
    ((n, cells lrow ++ replicate (length (columns a) - 1) VNaN) ∈ rows md <->
     existsb isna (cells lrow) = true \/ 1 < length (columns a)).
Proof using.
  intros Hl Hr Hm Hmd Hlrow Hk Hno.
  rewrite (joined_merge _ _ _ _ Hl Hr) in Hm.
  apply merge_left_inv in Hm as (kp & Hkp & ->).
  rewrite rows_with_missing_Ok in Hmd. injection Hmd as <-. cbn [rows].
  pose proof (length_other_positions kp _ (find_column_lt _ _ _ Hkp)) as Hothers.
  apply normalize_csv_inv in Hr as (q & _ & Hr).
  assert (columns r = columns a) as Hcols by (by rewrite Hr).
  rewrite Hcols in *.
  assert ((i, None) ∈ join_indexers 0 (identifiers l) (identifiers r)) as Hin.
  { apply elem_of_join_indexers. exists k. rewrite Nat.sub_0_r.
    split; [lia |]. split; [done |]. by apply match_positions_nil. }
  apply list_elem_of_lookup in Hin as [n Hn]. exists n.
  assert (imap (merge_row (rows l)
                  (taken_rows (rows r)
                     (join_indexers 0 (identifiers l) (identifiers r)))
                  (other_positions kp (length (columns a))))
               (join_indexers 0 (identifiers l) (identifiers r)) !! n
          = Some (n, cells lrow ++ replicate (length (columns a) - 1) VNaN))
    as Hrow.
  { rewrite list_lookup_imap, Hn. simpl. unfold merge_row. simpl.
    rewrite Hlrow. simpl. rewrite fmap_const_replicate.
    do 4 f_equal. lia. }
  split; [exact Hrow |].
  rewrite list_elem_of_filter. cbn [cells snd].
  rewrite existsb_app, existsb_isna_replicate. split.
  - intros [Hna _]. apply Is_true_true, orb_true_iff in Hna as [Hna | Hna];
      [by left | right]. apply Nat.ltb_lt in Hna. lia.
  - intros Hor. split; [| eapply list_elem_of_lookup_2, Hrow].
    apply Is_true_true, orb_true_iff. destruct Hor as [Hna | Hlen];
      [by left | right]. apply Nat.ltb_lt. lia.
Qed.

(** ** Which exceptions the script raises *)

Lemma normalize_counties_Err b e :
  normalize_counties b = Err e ->
  e = KeyError "GEOID" /\ find_column "GEOID" (columns b) = None.
Proof using.
  unfold normalize_counties, getitem.
  destruct (find_column "GEOID" (columns b)); [done |]. by intros [= <-].
Qed.

Lemma normalize_csv_Err a e :
  normalize_csv a = Err e ->
  e = KeyError "GEOID" /\ find_column "GEOID" (columns a) = None.
Proof using.
  unfold normalize_csv, getitem.
  destruct (find_column "GEOID" (columns a)); [done |]. by intros [= <-].
Qed.

Lemma normalize_counties_Ok_key b l :
  normalize_counties b = Ok l -> is_Some (find_column "GEOID" (columns b)).
Proof using. intros (p & Hp & _)%normalize_counties_inv. eauto. Qed.

Lemma gpd_read_file_Err path w e :
  gpd_read_file path w = Err e ->
  (files w !! path = None /\ e = FileNotFoundError path) \/
  (is_Some (files w !! path) /\ e = ParseError path).
Proof.
  unfold gpd_read_file. destruct (files w !! path) as [t |]; [| intros [= <-]; auto].
  destruct (decode_geojson t); [done |]. intros [= <-]. eauto.
Qed.

Lemma pd_read_csv_Err path strs w e :
  pd_read_csv path strs w = Err e ->
  (files w !! path = None /\ e = FileNotFoundError path) \/
  (is_Some (files w !! path) /\ e = ParseError path).
Proof.
  unfold pd_read_csv. destruct (files w !! path) as [t |]; [| intros [= <-]; auto].
  destruct (decode_csv strs t); [done |]. intros [= <-]. eauto.
Qed.

(** X2: lines 8 to 11 raise in a fixed order of precedence.  A missing or
    undecodable boundary file comes first, then a boundary file without
    [GEOID] column ([KeyError], raised before the table of cases is even
    opened), then a missing or undecodable table, then a table without
    [GEOID] column. *)
Theorem loader_error_precedence s e s1 :
  run [line_8; line_9; line_10; line_11] s = Raised e s1 ->
  (gpd_read_file geojson_path (os s) = Err e /\
   (e = FileNotFoundError geojson_path \/ e = ParseError geojson_path)) \/
  (exists b,
     gpd_read_file geojson_path (os s) = Ok b /\
     find_column "GEOID" (columns b) = None /\ e = KeyError "GEOID") \/
  (exists b,
     gpd_read_file geojson_path (os s) = Ok b /\
     is_Some (find_column "GEOID" (columns b)) /\
     pd_read_csv csv_path ["GEOID"] (os s) = Err e /\
     (e = FileNotFoundError csv_path \/ e = ParseError csv_path)) \/
  (exists b a,
     gpd_read_file geojson_path (os s) = Ok b /\
     is_Some (find_column "GEOID" (columns b)) /\
     pd_read_csv csv_path ["GEOID"] (os s) = Ok a /\
     find_column "GEOID" (columns a) = None /\ e = KeyError "GEOID").
Proof.
  unfold run, line_8, line_9, line_10, line_11, assign.
  cbn [py os counties csv_data set_counties set_csv_data].
  destruct (gpd_read_file geojson_path (os s)) as [b | e0] eqn:Hb.
  2:{ intros [= <- _]. left. split; [done |].
      apply gpd_read_file_Err in Hb as [[_ ->] | [_ ->]]; auto. }
  cbn [py os counties csv_data set_counties set_csv_data].
  destruct (normalize_counties b) as [l | e0] eqn:Hl.
  2:{ intros [= <- _]. right. left. exists b.
      apply normalize_counties_Err in Hl as [-> Hnone]. done. }
  pose proof (normalize_counties_Ok_key _ _ Hl) as Hkey.
  cbn [py os counties csv_data set_counties set_csv_data].
  destruct (pd_read_csv csv_path ["GEOID"] (os s)) as [a | e0] eqn:Ha.
  2:{ intros [= <- _]. right. right. left. exists b.
      do 3 (split; [done |]).
      apply pd_read_csv_Err in Ha as [[_ ->] | [_ ->]]; auto. }
  cbn [py os counties csv_data set_counties set_csv_data].
  destruct (normalize_csv a) as [r | e0] eqn:Hr; [done |].
  intros [= <- _]. right. right. right. exists b, a.
  apply normalize_csv_Err in Hr as [-> Hnone]. done.
Qed.

(** ** When the report halts the run *)

Lemma select_report_columns df :
  select_columns df ["GEOID"; "NAME"]
  = match find_column "GEOID" (columns df), find_column "NAME" (columns df) with
    | Some p, Some q =>
        Ok (mkFrame ["GEOID"; "NAME"]
              (map (fun r => (label r, map (cell (cells r)) [p; q])) (rows df)))
    | Some _, None => Err (KeyError "NAME")
    | None, _ => Err (KeyError "GEOID")
    end.
Proof using.
  unfold select_columns. cbn [column_positions].
  destruct (find_column "GEOID" (columns df)); [| done].
  by destruct (find_column "NAME" (columns df)).
Qed.

Lemma joined_identifier_strings b a m :
  joined b a = Ok m ->
  rectangular b = true ->
  exists p,
    find_column "GEOID" (columns m) = Some p /\
    Forall (fun r => exists s, cell (cells r) p = VStr s) (rows m).
Proof using.
  intros Hm Hrect.
  destruct (joined_inv _ _ _ Hm) as (l & r & Hl & _ & _).
  destruct (joined_row_origin _ _ _ _ Hl Hm Hrect) as (p & _ & Hp & Horigin).
  exists p. split; [done |]. apply Forall_forall. intros out Hout.
  destruct (Horigin out Hout) as (i & brow & lrow & _ & _ & _ & Hcell). eauto.
Qed.

(** The three frames of the report and the two tables printed, for a
    merged frame [m] whose identifier column is at [p] and whose name
    column is at [q]. *)
Lemma run_reporter_joined s p :
  find_column "GEOID" (columns (merged_data (py s))) = Some p ->
  Forall (fun r => exists t, cell (cells r) p = VStr t)
         (rows (merged_data (py s))) ->
  match find_column "NAME" (columns (merged_data (py s))) with
  | Some q =>
      exists s' t1 t2,
        run reporter s = Done s' /\
        merged_data (py s') = merged_data (py s) /\
        select_columns (missing_mainland (py s')) ["GEOID"; "NAME"] = Ok t1 /\
        select_columns (missing_non_mainland (py s')) ["GEOID"; "NAME"] = Ok t2 /\
        files (os s') = files (os s) /\
        readonly (os s') = readonly (os s) /\
        stdout (os s')
        = stdout (os s)
          ++ ["Mainland USA counties with missing data:" +:+ newline
                +:+ to_string t1;
              "Non-mainland counties with missing data:" +:+ newline
                +:+ to_string t2]
  | None =>
      exists s', run reporter s = Raised (KeyError "NAME") s' /\ os s' = os s
  end.
Proof.
  intros Hp Hstr.
  set (m := merged_data (py s)) in *.
  set (md := mkFrame (columns m)
               (filter (fun r => existsb isna (cells r)) (rows m))).
  assert (Forall (fun r => exists t, cell (cells r) p = VStr t) (rows md)) as Hmd.
  { apply Forall_forall. intros r [_ Hr]%list_elem_of_filter.
    rewrite Forall_forall in Hstr. by apply Hstr. }
  unfold reporter, run, line_13, line_14, line_15, line_16, line_17,
    assign, print.
  fold m. rewrite rows_with_missing_Ok. fold md.
  cbn -[select_columns mainland_of non_mainland_of md].
  rewrite (mainland_of_Ok md p Hp Hmd).
  cbn -[select_columns mainland_of non_mainland_of md].
  rewrite (non_mainland_of_Ok md p Hp Hmd).
  cbn -[select_columns mainland_of non_mainland_of md].
  rewrite select_report_columns. cbn [columns].
  change (columns md) with (columns m). rewrite Hp.
  destruct (find_column "NAME" (columns m)) as [q |] eqn:Hq.
  - cbn -[md select_columns]. rewrite select_report_columns. cbn [columns].
    change (columns md) with (columns m). rewrite Hp, Hq.
    cbn -[md select_columns]. eexists _, _, _. split; [reflexivity |].
    cbn -[md select_columns]. rewrite !select_report_columns. cbn [columns].
    change (columns md) with (columns m). rewrite Hp, Hq.
    rewrite <- app_assoc. done.
  - cbn -[md]. eexists. split; [reflexivity | done].
Qed.

(** X3: missing data never halts the run, a missing name column does.  On
    the result of the join (of a rectangular boundary frame) lines 13 to
    17 complete and print the two tables exactly when the merged frame
    has a column named [NAME]; otherwise they raise [KeyError] on
    ["NAME"] before anything is printed. *)
Theorem reporter_halts_only_without_name s b a :
  joined b a = Ok (merged_data (py s)) ->
  rectangular b = true ->
  match find_column "NAME" (columns (merged_data (py s))) with
  | Some q =>
      exists s' t1 t2,
        run reporter s = Done s' /\
        select_columns (missing_mainland (py s')) ["GEOID"; "NAME"] = Ok t1 /\
        select_columns (missing_non_mainland (py s')) ["GEOID"; "NAME"] = Ok t2 /\
        stdout (os s')
        = stdout (os s)
          ++ ["Mainland USA counties with missing data:" +:+ newline
                +:+ to_string t1;
              "Non-mainland counties with missing data:" +:+ newline
                +:+ to_string t2]
  | None =>
      exists s', run reporter s = Raised (KeyError "NAME") s' /\ os s' = os s
  end.
Proof.
  intros Hm Hrect.
  destruct (joined_identifier_strings _ _ _ Hm Hrect) as (p & Hp & Hstr).
  pose proof (run_reporter_joined s p Hp Hstr) as H.
  destruct (find_column "NAME" (columns (merged_data (py s)))); [| done].
  destruct H as (s' & t1 & t2 & Hrun & _ & H1 & H2 & _ & _ & Hout). eauto 10.
Qed.

(** ** Name columns on both sides *)

Lemma suffixed_not_NAME (c sfx : string) :
  String.length sfx = 2 -> sfx <> "ME" -> c +:+ sfx <> "NAME".
Proof using.
  intros Hlen Hsfx H.
  assert (String.length (c +:+ sfx) = 4) as Hl by (by rewrite H).
  rewrite length_string_app, Hlen in Hl.
  destruct c as [| a1 [| a2 [| a3 c']]]; cbn [String.length] in Hl; try lia.
  cbn [String.append] in H. injection H as _ _ H. done.
Qed.

Lemma find_column_None name cols :
  (forall c, c ∈ cols -> c <> name) -> find_column name cols = None.
Proof using.
  induction cols as [| c cols IH]; intros H; simpl; [done |].
  destruct (String.eqb_spec c name) as [-> | Hne].
  - exfalso. by apply (H name); [left |].
  - rewrite IH; [done |]. intros c' Hc'. apply H. by right.
Qed.

(** A name column on both sides is renamed on both sides, and no column
    of the merged frame is called [NAME]. *)
Lemma merged_without_NAME lcols rcols others :
  "NAME" ∈ lcols -> "NAME" ∈ rcols ->
  find_column "NAME" (merged_columns "GEOID" lcols rcols others) = None.
Proof using.
  intros Hl Hr. apply find_column_None. intros c. unfold merged_columns.
  rewrite elem_of_app. intros [Hc | Hc].
  - apply list_elem_of_fmap in Hc as (c0 & -> & Hc0).
    case_bool_decide as Hdec; [by apply suffixed_not_NAME |].
    intros ->. apply Hdec. done.
  - apply list_elem_of_fmap in Hc as (q & -> & _). cbn zeta.
    case_bool_decide as Hdec; [by apply suffixed_not_NAME |].
    intros Heq. apply Hdec. by rewrite Heq.
Qed.

Lemma joined_columns b a m :
  joined b a = Ok m ->
  exists kp,
    find_column "GEOID" (columns a) = Some kp /\
    columns m = merged_columns "GEOID" (columns b) (columns a)
                  (other_positions kp (length (columns a))).
Proof using.
  intros (l & r & Hl & Hr & Hm)%joined_inv.
  apply normalize_counties_inv in Hl as (p & Hp & ->).
  apply normalize_csv_inv in Hr as (q & Hq & ->).
  apply merge_left_inv in Hm as (kp & Hkp & ->). eauto.
Qed.

Lemma run_loader_intro s b a m :
  gpd_read_file geojson_path (os s) = Ok b ->
  pd_read_csv csv_path ["GEOID"] (os s) = Ok a ->
  joined b a = Ok m ->
  exists s1,
    run loader_normalizer_merger s = Done s1 /\
    merged_data (py s1) = m /\ os s1 = os s.
Proof.
  intros Hb Ha (l & r & Hl & Hr & Hm)%joined_inv.
  unfold loader_normalizer_merger, run, line_8, line_9, line_10, line_11,
    line_12, assign. cbn [py os counties csv_data set_counties set_csv_data].
  rewrite Hb. cbn [py os counties csv_data set_counties set_csv_data].
  rewrite Hl. cbn [py os counties csv_data set_counties set_csv_data].
  rewrite Ha. cbn [py os counties csv_data set_counties set_csv_data].
  rewrite Hr. cbn [py os counties csv_data set_counties set_csv_data].
  rewrite Hm. eauto.
Qed.

(** X4: when both input files have a column named [NAME], the merge
    renames both and the report cannot find [NAME]: once the join has
    produced its frame, the run raises [KeyError] on ["NAME"] at line 16,
    with nothing printed and no file written. *)
Theorem name_on_both_sides_aborts s b a m :
  gpd_read_file geojson_path (os s) = Ok b ->
  pd_read_csv csv_path ["GEOID"] (os s) = Ok a ->
  rectangular b = true ->
  joined b a = Ok m ->
  "NAME" ∈ columns b ->
  "NAME" ∈ columns a ->
  find_column "NAME" (columns m) = None /\
  exists s', run script s = Raised (KeyError "NAME") s' /\ os s' = os s.
Proof.
  intros Hb Ha Hrect Hm Hnb Hna.
  destruct (run_loader_intro s b a m Hb Ha Hm) as (s1 & Hrun & Hmd & Hos).
  destruct (joined_columns _ _ _ Hm) as (kp & _ & Hcols).
  destruct (joined_identifier_strings _ _ _ Hm Hrect) as (p & Hp & Hstr).
  assert (find_column "NAME" (columns m) = None) as Hnone.
  { rewrite Hcols. by apply merged_without_NAME. }
  split; [exact Hnone |].
  rewrite <- Hmd in Hp, Hstr, Hnone.
  pose proof (run_reporter_joined s1 p Hp Hstr) as Hrep.
  rewrite Hnone in Hrep. destruct Hrep as (s' & Hrep & Hos').
  exists s'. split; [| congruence].
  unfold script. rewrite run_app, Hrun, run_app, Hrep. done.
Qed.

(** X5: when both files decode, both have a [GEOID] column, the merged
    frame has a [NAME] column, the frame can be encoded and the output
    path can be written, the run completes: it prints the two report
    tables and then the confirmation, in this order, and changes the
    files only by the output file, which holds the encoded merged
    frame. *)
Theorem script_completes s b a m txt :
  gpd_read_file geojson_path (os s) = Ok b ->
  pd_read_csv csv_path ["GEOID"] (os s) = Ok a ->
  rectangular b = true ->
  joined b a = Ok m ->
  is_Some (find_column "NAME" (columns m)) ->
  encode_geojson m = Some txt ->
  output_geojson_path ∉ readonly (os s) ->
  exists s' t1 t2,
    run script s = Done s' /\
    merged_data (py s') = m /\
    select_columns (missing_mainland (py s')) ["GEOID"; "NAME"] = Ok t1 /\
    select_columns (missing_non_mainland (py s')) ["GEOID"; "NAME"] = Ok t2 /\
    files (os s') = <[output_geojson_path := txt]> (files (os s)) /\
    stdout (os s')
    = stdout (os s)
      ++ ["Mainland USA counties with missing data:" +:+ newline
            +:+ to_string t1;
          "Non-mainland counties with missing data:" +:+ newline
            +:+ to_string t2;
          "New GeoJSON file saved at: merged_county_data.geojson"].
Proof.
  intros Hb Ha Hrect Hm [q Hq] Henc Hrw.
  destruct (run_loader_intro s b a m Hb Ha Hm) as (s1 & Hrun & Hmd & Hos).
  destruct (joined_identifier_strings _ _ _ Hm Hrect) as (p & Hp & Hstr).
  rewrite <- Hmd in Hp, Hstr, Hq.
  pose proof (run_reporter_joined s1 p Hp Hstr) as Hrep. rewrite Hq in Hrep.
  destruct Hrep as (s2 & t1 & t2 & Hrep & Hmd2 & Ht1 & Ht2 & Hf & Hro & Hout).
  unfold script. rewrite run_app, Hrun, run_app, Hrep.
  unfold writer, run, line_19, line_20, print, to_file.
  rewrite Hmd2, Hmd, Henc, Hro, Hos.
  rewrite bool_decide_eq_false_2 by done.
  eexists _, t1, t2. split; [reflexivity |]. cbn.
  rewrite Hmd2, Hmd, Hf, Hout, Hos, <- app_assoc. done.
Qed.

(** ** Files and output of a run *)

Lemma run_script_files s :
  readonly (os (final (run script s))) = readonly (os s) /\
  (files (os (final (run script s))) = files (os s) \/
   exists txt,
     files (os (final (run script s)))
     = <[output_geojson_path := txt]> (files (os s))).
Proof.
  unfold script. rewrite run_app.
  pose proof (run_loader_inv s) as Hload.
  destruct (run loader_normalizer_merger s) as [s1 | e1 s1]; cbn [final].
  - destruct Hload as (_ & _ & _ & _ & _ & Hos). rewrite run_app.
    pose proof (run_reporter_frame s1) as (_ & _ & _ & Hfiles & Hro).
    destruct (run reporter s1) as [s2 | e2 s2]; cbn [final] in *.
    + pose proof (run_writer_inv s2) as Hw.
      destruct (run writer s2) as [s3 | e3 s3]; cbn [final].
      * destruct Hw as (txt & _ & _ & Hf & Hr).
        rewrite Hr, Hro, Hf, Hfiles, Hos. eauto.
      * rewrite Hw, Hro, Hfiles, Hos. auto.
    + rewrite Hro, Hfiles, Hos. auto.
  - rewrite Hload. auto.
Qed.

(** X6: a run, however it ends, writes no file but the output file: every
    other path, the two input files among them, holds afterwards what it
    held before, and the set of unwritable paths is the same. *)
Theorem only_output_file_written s :
  (forall path, path <> output_geojson_path ->
     files (os (final (run script s))) !! path = files (os s) !! path) /\
  files (os (final (run script s))) !! geojson_path
  = files (os s) !! geojson_path /\
  files (os (final (run script s))) !! csv_path = files (os s) !! csv_path /\
  readonly (os (final (run script s))) = readonly (os s).
Proof.
  destruct (run_script_files s) as [Hro Hfiles].
  assert (forall path, path <> output_geojson_path ->
    files (os (final (run script s))) !! path = files (os s) !! path) as H.
  { intros path Hne. destruct Hfiles as [-> | [txt ->]]; [done |].
    by rewrite lookup_insert_ne. }
  split; [exact H |]. split; [by apply H |]. split; [by apply H | done].
Qed.

(** X7: when everything up to line 19 succeeds but the output path cannot
    be written, the run raises [IOError] on that path after both report
    tables have been printed: the confirmation is not printed and no file
    is changed. *)
Theorem write_error_after_report s b a m txt :
  gpd_read_file geojson_path (os s) = Ok b ->
  pd_read_csv csv_path ["GEOID"] (os s) = Ok a ->
  rectangular b = true ->
  joined b a = Ok m ->
  is_Some (find_column "NAME" (columns m)) ->
  encode_geojson m = Some txt ->
  output_geojson_path ∈ readonly (os s) ->
  exists s' t1 t2,
    run script s = Raised (IOError output_geojson_path) s' /\
    select_columns (missing_mainland (py s')) ["GEOID"; "NAME"] = Ok t1 /\
    select_columns (missing_non_mainland (py s')) ["GEOID"; "NAME"] = Ok t2 /\
    files (os s') = files (os s) /\
    stdout (os s')
    = stdout (os s)
      ++ ["Mainland USA counties with missing data:" +:+ newline
            +:+ to_string t1;
          "Non-mainland counties with missing data:" +:+ newline
            +:+ to_string t2].
Proof.
  intros Hb Ha Hrect Hm [q Hq] Henc Hro.
  destruct (run_loader_intro s b a m Hb Ha Hm) as (s1 & Hrun & Hmd & Hos).
  destruct (joined_identifier_strings _ _ _ Hm Hrect) as (p & Hp & Hstr).
  rewrite <- Hmd in Hp, Hstr, Hq.
  pose proof (run_reporter_joined s1 p Hp Hstr) as Hrep. rewrite Hq in Hrep.
  destruct Hrep as (s2 & t1 & t2 & Hrep & Hmd2 & Ht1 & Ht2 & Hf & Hro2 & Hout).
  unfold script. rewrite run_app, Hrun, run_app, Hrep.
  unfold writer, run, line_19, line_20, print, to_file.
  rewrite Hmd2, Hmd, Henc, Hro2, Hos.
  rewrite bool_decide_eq_true_2 by done.
  exists s2, t1, t2. split; [reflexivity |].
  by rewrite Hf, Hout, Hos.
Qed.

(** ** Inputs without missing values *)

Lemma existsb_false_iff {A} (f : A -> bool) (l : list A) :
  existsb f l = false <-> forall x, x ∈ l -> f x = false.
Proof using.
  induction l as [| y l IH]; simpl.
  - split; [by intros _ x ?%elem_of_nil | done].
  - rewrite orb_false_iff, IH. split.
    + intros [Hy Hl] x [-> | Hx]%elem_of_cons; auto.
    + intros H. split; [apply H; by left |]. intros x Hx. apply H. by right.
Qed.

(** X13: inputs without gaps give an empty report.  When no cell of the
    two normalized frames is missing (the attribute frame rectangular)
    and every boundary identifier is carried by some attribute record,
    no row of the merged frame is flagged. *)
Theorem complete_inputs_empty_report b a l r m md :
  normalize_counties b = Ok l ->
  normalize_csv a = Ok r ->
  joined b a = Ok m ->
  rows_with_missing m = Ok md ->
  rectangular r = true ->
  Forall (fun x => existsb isna (cells x) = false) (rows l) ->
  Forall (fun x => existsb isna (cells x) = false) (rows r) ->
  Forall (fun k => exists x, x ∈ identifiers r /\ key_match k x = true)
         (identifiers l) ->
  rows md = [].
Proof using.
  intros Hl Hr Hm Hmd Hrect Hlna Hrna Hmatch.
  rewrite (joined_merge _ _ _ _ Hl Hr) in Hm.
  apply merge_left_inv in Hm as (kp & Hkp & ->).
  pose proof (identifiers_length_normalized _ _ Hl) as Hids.
  pose proof (identifiers_length _ _ Hkp) as Hidsr.
  rewrite rows_with_missing_Ok in Hmd. injection Hmd as <-. cbn [rows].
  match goal with |- ?l = [] => destruct l as [| out outs] eqn:Hf end;
    [done | exfalso].
  assert (out ∈ out :: outs) as Hout by (by left).
  rewrite <- Hf in Hout. clear Hf outs.
  apply list_elem_of_filter in Hout
    as [Hna (n & [i oj] & -> & Hix)%elem_of_lookup_imap_1].
  apply list_elem_of_lookup_2 in Hix.
  apply elem_of_join_indexers in Hix as (k & _ & Hk & Hoj).
  rewrite Nat.sub_0_r in Hk.
  destruct (lookup_lt_is_Some_2 (rows l) i) as [lrow Hlrow].
  { rewrite <- Hids. by eapply lookup_lt_Some. }
  rewrite Forall_forall in Hlna. rewrite Forall_forall in Hrna.
  rewrite Forall_forall in Hmatch.
  destruct oj as [j |].
  - apply elem_of_match_positions in Hoj as (x & _ & Hx & _).
    rewrite Nat.sub_0_r in Hx.
    destruct (lookup_lt_is_Some_2 (rows r) j) as [rrow Hrrow].
    { rewrite <- Hidsr. by eapply lookup_lt_Some. }
    rewrite (merge_row_matched _ _ _ _ _ _ _ _ _ Hlrow Hrrow) in Hna.
    cbn [cells snd] in Hna. rewrite existsb_app in Hna.
    rewrite (Hlna lrow) in Hna by (eapply list_elem_of_lookup_2, Hlrow).
    simpl in Hna. apply Is_true_true in Hna.
    match type of Hna with
    | existsb isna ?cs = true => assert (existsb isna cs = false) as Hfalse
    end; [| congruence].
    apply existsb_false_iff. intros v (q & -> & Hq)%list_elem_of_fmap.
    unfold other_positions in Hq.
    apply list_elem_of_filter in Hq as [_ Hq%elem_of_seq].
    apply rectangular_Forall in Hrect. rewrite Forall_forall in Hrect.
    assert (rrow ∈ rows r) as Hin by (eapply list_elem_of_lookup_2, Hrrow).
    destruct (lookup_lt_is_Some_2 (cells rrow) q) as [v Hv].
    { rewrite (Hrect _ Hin). lia. }
    assert (isna (cell (cells rrow) q) = false) as Hcell.
    { unfold cell. rewrite Hv. simpl.
      eapply (proj1 (existsb_false_iff isna (cells rrow))).
      - by apply Hrna.
      - eapply list_elem_of_lookup_2, Hv. }
    unfold taken_cell. destruct (_ && _); [| done].
    by destruct (cell (cells rrow) q).
  - destruct (Hmatch k) as (x & Hx & Hkx);
      [eapply list_elem_of_lookup_2, Hk |].
    pose proof (proj1 (match_positions_nil _ _) Hoj) as Hnone.
    by rewrite (Hnone x Hx) in Hkx.
Qed.

End Script.

(** ** The script on the example frames *)

Example zfill_examples :
  zfill 5 "6001" = "06001" /\ zfill 5 "72" = "00072" /\
  zfill 5 "" = "00000" /\ zfill 5 "72001" = "72001" /\
  zfill 5 "123456" = "123456" /\ zfill 5 "-1" = "-0001".
Proof. by repeat split. Qed.

(** Integers up to [2 ^ 53] convert to floats exactly and larger ones to
    the nearest float; a float is printed without exponent below [1e16]
    and with the shortest digits that read back as the same float from
    there on. *)
Example float_examples :
  round_float 7 = 7%Z /\
  round_float (2 ^ 53 + 1) = (2 ^ 53)%Z /\
  round_float (2 ^ 63 - 1) = (2 ^ 63)%Z /\
  round_float 123456789012345678 = 123456789012345680%Z /\
  float_repr 7 = "7.0" /\ float_repr 0 = "0.0" /\ float_repr (-7) = "-7.0" /\
  float_repr (2 ^ 53) = "9007199254740992.0" /\
  float_repr (10 ^ 16) = "1e+16" /\
  float_repr (10 ^ 16 + 2) = "1.0000000000000002e+16" /\
  float_repr 123456789012345680 = "1.2345678901234568e+17" /\
  float_repr (2 ^ 63) = "9.223372036854776e+18" /\
  float_repr (- 2 ^ 63) = "-9.223372036854776e+18".
Proof. by vm_compute. Qed.

Lemma round_float_small (n : Z) : (Z.abs n < 2 ^ 53)%Z -> round_float n = n.
Proof. intros H. unfold round_float. by rewrite (proj2 (Z.ltb_lt _ _) H). Qed.

(** The identifier [6001] joins the attribute row of ["06001"], the county
    ["72001"] has no attribute row, and the rows keep the order of the
    boundary collection, which is not the order of the identifiers. *)
Example joined_example : joined ex_counties ex_cases = Ok ex_merged.
Proof. reflexivity. Qed.

Example report_example :
  rows_with_missing ex_merged = Ok ex_missing /\
  mainland_of ex_missing = Ok (mkFrame (columns ex_missing) []) /\
  non_mainland_of ex_missing = Ok ex_missing.
Proof. by repeat split. Qed.

(** C1 as stated fails: an attribute collection that carries the
    identifier of a county twice gives two output rows for one boundary
    record. *)
Lemma duplicate_identifier_adds_rows :
  exists m, joined ex_one_county ex_cases_twice = Ok m /\
            length (rows ex_one_county) = 1 /\ length (rows m) = 2.
Proof. eexists. by repeat split. Qed.

(** C3 as stated fails: the zeros are not put on the left of a string that
    begins with a sign. *)
Lemma signed_identifier_not_left_padded :
  exists l, normalize_counties ex_signed_county = Ok l /\
            identifiers l = [VStr "-0001"] /\
            "-0001" <> zeros (5 - String.length "-1") +:+ "-1".
Proof. eexists. by repeat split. Qed.

(** C4 as stated fails: an identifier of six characters stays as it is. *)
Lemma long_identifier_not_five_characters :
  exists m, joined ex_long_county ex_cases = Ok m /\
            identifiers m = [VStr "123456"] /\
            String.length "123456" <> 5.
Proof. eexists. by repeat split. Qed.

(** C10 as stated fails: the identifier ["-1"] has fewer than five
    characters, and its normalized form begins with ['-']. *)
Lemma signed_identifier_not_zero_first :
  String.length (py_str (VStr "-1")) < 5 /\
  zfill 5 (py_str (VStr "-1")) = String "-"%char "0001" /\
  "-"%char <> "0"%char.
Proof. repeat split; [simpl; lia | done]. Qed.

(** ** The theorems on the example frames *)

Lemma left_join_cardinality_witness :
  joined ex_counties ex_cases = Ok ex_merged /\
  matched_at_most_once (identifiers ex_counties_normalized)
                       (identifiers ex_cases_normalized) = true /\
  length (rows ex_merged) = length (rows ex_counties) /\
  Forall2 extends (rows ex_merged) (rows ex_counties_normalized).
Proof.
  split; [reflexivity |]. split; [reflexivity |].
  destruct (left_join_cardinality ex_counties ex_cases
              ex_counties_normalized ex_cases_normalized ex_merged
              eq_refl eq_refl eq_refl) as (_ & _ & H).
  exact (H eq_refl).
Defined.

Lemma left_join_semantics_witness :
  (exists n,
     (n, [VStr "72001"; VStr "Adjuntas"; VGeom "POLYGON ((2 2, 3 2, 3 3, 2 2))";
          VNaN]) ∈ rows ex_merged) /\
  (exists n,
     (n, [VStr "06001"; VStr "Alameda"; VGeom "POLYGON ((0 0, 1 0, 1 1, 0 0))";
          VFloat 7]) ∈ rows ex_merged).
Proof.
  destruct (left_join_semantics ex_counties ex_cases
              ex_counties_normalized ex_cases_normalized ex_merged
              eq_refl eq_refl eq_refl)
    as (kp & Hkp & _ & _ & _ & Hpair & Hun & _).
  injection Hkp as <-. split.
  - apply (Hun 1 (1, [VStr "72001"; VStr "Adjuntas";
                      VGeom "POLYGON ((2 2, 3 2, 3 3, 2 2))"])
             (VStr "72001") eq_refl eq_refl).
    intros x Hx. vm_compute in Hx.
    repeat (apply elem_of_cons in Hx as [-> | Hx]; [reflexivity |]).
    by apply elem_of_nil in Hx.
  - exact (Hpair 0 1
             (0, [VStr "06001"; VStr "Alameda";
                  VGeom "POLYGON ((0 0, 1 0, 1 1, 0 0))"])
             (1, [VStr "06001"; VInt 7])
             (VStr "06001") (VStr "06001")
             eq_refl eq_refl eq_refl eq_refl eq_refl).
Defined.

Lemma merge_keeps_boundary_order_witness :
  exists left_indexer : list nat,
    StronglySorted le left_indexer /\
    Forall2 (fun out i => exists lrow,
               rows ex_counties_normalized !! i = Some lrow /\ extends out lrow)
            (rows ex_merged) left_indexer /\
    (forall i, i < length (rows ex_counties) -> i ∈ left_indexer) /\
    map label (rows ex_merged) = seq 0 (length (rows ex_merged)).
Proof.
  exact (merge_keeps_boundary_order ex_counties ex_cases
           ex_counties_normalized ex_merged eq_refl eq_refl).
Defined.

Lemma normalization_zero_fills_witness :
  String.length "6001" < 5 /\
  String.length (zfill 5 "6001") = 5 /\
  zfill 5 "6001" = zeros (5 - String.length "6001") +:+ "6001".
Proof.
  assert (String.length "6001" < 5) as Hlen by (simpl; lia).
  split; [exact Hlen |].
  destruct normalization_zero_fills as (_ & H & _).
  exact (H "6001" Hlen).
Defined.

Lemma output_identifiers_zero_filled_witness :
  exists ids,
    getitem ex_merged "GEOID" = Ok ids /\
    length ids = length (rows ex_merged) /\
    Forall (fun v => exists v0,
              v0 ∈ identifiers ex_counties /\
              v = VStr (zfill 5 (py_str v0)) /\
              5 <= String.length (zfill 5 (py_str v0)) /\
              (String.length (py_str v0) <= 5 ->
               String.length (zfill 5 (py_str v0)) = 5)) ids.
Proof.
  exact (output_identifiers_zero_filled ex_counties ex_cases ex_merged
           eq_refl eq_refl).
Defined.

Lemma missing_data_partition_witness :
  exists p md ml nm,
    find_column "GEOID" (columns ex_merged) = Some p /\
    rows_with_missing ex_merged = Ok md /\
    mainland_of md = Ok ml /\
    non_mainland_of md = Ok nm /\
    rows md = filter (fun r => existsb isna (cells r)) (rows ex_merged) /\
    rows nm = filter (fun r => starts_with_72 p r) (rows md) /\
    rows ml = filter (fun r => ¬ starts_with_72 p r) (rows md) /\
    rows nm ++ rows ml ≡ₚ rows md /\
    (forall r, r ∈ rows ml -> r ∉ rows nm) /\
    NoDup (rows md).
Proof.
  exact (missing_data_partition ex_counties ex_cases ex_merged eq_refl eq_refl).
Defined.

Lemma short_identifier_never_non_mainland_witness :
  String.length "72" < 5 /\
  String.prefix "72" "72" = true /\
  String.prefix "72" (zfill 5 "72") = false /\
  exists p,
    find_column "GEOID" (columns ex_counties) = Some p /\
    forall out, out ∈ rows ex_missing ->
      exists i brow lrow,
        rows ex_counties !! i = Some brow /\
        rows ex_counties_normalized !! i = Some lrow /\
        extends out lrow /\
        cell (cells out) p = VStr (zfill 5 (py_str (cell (cells brow) p))) /\
        String.prefix "72" (zfill 5 (py_str (cell (cells brow) p))) = true /\
        5 <= String.length (py_str (cell (cells brow) p)).
Proof.
  assert (String.length "72" < 5) as Hlen by (simpl; lia).
  split; [exact Hlen |]. split; [reflexivity |].
  destruct short_identifier_never_non_mainland as [Hshort Hrows].
  split; [exact (proj1 (Hshort "72" Hlen)) |].
  exact (Hrows ex_counties ex_cases ex_counties_normalized ex_merged
           ex_missing ex_missing eq_refl eq_refl eq_refl eq_refl eq_refl).
Defined.

Lemma report_is_observational_witness :
  exists s',
    run (script ex_decode_geojson ex_decode_csv ex_encode_geojson ex_to_string)
        ex_state = Done s' /\
    merged_data (py s') = ex_merged /\
    files (os s') !! output_geojson_path = Some "06001,72001,01001" /\
    (forall r, r ∈ rows (missing_data (py s')) -> r ∈ rows ex_merged).
Proof.
  destruct (run (script ex_decode_geojson ex_decode_csv ex_encode_geojson
                   ex_to_string) ex_state) as [s' | e s'] eqn:Hrun;
    [| vm_compute in Hrun; discriminate Hrun].
  exists s'. split; [reflexivity |].
  destruct (proj2 (report_is_observational ex_decode_geojson ex_decode_csv
                     ex_encode_geojson ex_to_string) ex_state s' Hrun)
    as (b & a & m & txt & Hb & Ha & Hm & Hmd & Henc & Hfiles & Hsub).
  vm_compute in Hb. injection Hb as <-.
  vm_compute in Ha. injection Ha as <-.
  vm_compute in Hm. injection Hm as <-.
  vm_compute in Henc. injection Henc as <-.
  split; [exact Hmd |]. split; [| exact Hsub].
  rewrite Hfiles. apply lookup_insert_eq.
Defined.

Lemma errors_abort_without_output_witness :
  exists s1,
    run (script ex_decode_geojson ex_decode_csv ex_encode_geojson ex_to_string)
        ex_state_no_csv = Raised (FileNotFoundError csv_path) s1 /\
    os s1 = os ex_state_no_csv.
Proof.
  eexists.
  apply (proj1 (proj2 (errors_abort_without_output ex_decode_geojson
                         ex_decode_csv ex_encode_geojson ex_to_string
                         ex_state_no_csv))).
  vm_compute. reflexivity.
Defined.

Lemma pipeline_deterministic_witness :
  files (os ex_state) !! geojson_path = files (os ex_state_other) !! geojson_path /\
  files (os ex_state) !! csv_path = files (os ex_state_other) !! csv_path /\
  same_outcome
    (fun a b => merged_data (py a) = merged_data (py b) /\
                files (os a) !! output_geojson_path
                = files (os b) !! output_geojson_path)
    (run (script ex_decode_geojson ex_decode_csv ex_encode_geojson ex_to_string)
         ex_state)
    (run (script ex_decode_geojson ex_decode_csv ex_encode_geojson ex_to_string)
         ex_state_other).
Proof.
  split; [reflexivity |]. split; [reflexivity |].
  exact (proj1 (proj2 (pipeline_deterministic ex_decode_geojson ex_decode_csv
                         ex_encode_geojson ex_to_string
                         ex_state ex_state_other eq_refl eq_refl)) eq_refl).
Defined.

(** ** Further properties on the example frames *)

Lemma joined_needs_identifier_column_witness :
  find_column "GEOID" (columns ex_empty) = None /\
  joined ex_counties ex_empty = Err (KeyError "GEOID") /\
  is_Some (find_column "GEOID" (columns ex_counties)) /\
  is_Some (find_column "GEOID" (columns ex_cases)) /\
  is_Some (find_column "GEOID" (columns ex_merged)).
Proof.
  split; [reflexivity |]. split.
  - exact (proj1 (proj2 (joined_needs_identifier_column ex_counties ex_empty))
             eq_refl).
  - exact (proj2 (proj2 (joined_needs_identifier_column ex_counties ex_cases))
             ex_merged eq_refl).
Defined.

Lemma loader_error_precedence_witness :
  exists e s1,
    run [line_8 ex_decode_geojson; line_9; line_10 ex_decode_csv; line_11]
        ex_state_no_csv = Raised e s1 /\
    e = FileNotFoundError csv_path.
Proof.
  destruct (run [line_8 ex_decode_geojson; line_9; line_10 ex_decode_csv;
                 line_11] ex_state_no_csv) as [s1 | e s1] eqn:Hrun;
    [vm_compute in Hrun; discriminate Hrun |].
  exists e, s1. split; [reflexivity |].
  destruct (loader_error_precedence ex_decode_geojson ex_decode_csv
              ex_state_no_csv e s1 Hrun)
    as [[H _] | [(b & Hb & H & _) | [(b & _ & _ & H & _)
                                    | (b & a & _ & _ & H & _)]]].
  - vm_compute in H. discriminate H.
  - vm_compute in Hb. injection Hb as <-. vm_compute in H. discriminate H.
  - vm_compute in H. injection H as <-. reflexivity.
  - vm_compute in H. discriminate H.
Defined.

Lemma reporter_halts_only_without_name_witness :
  exists s' t1 t2,
    run (reporter ex_to_string) ex_state_merged = Done s' /\
    select_columns (missing_mainland (py s')) ["GEOID"; "NAME"] = Ok t1 /\
    select_columns (missing_non_mainland (py s')) ["GEOID"; "NAME"] = Ok t2 /\
    stdout (os s')
    = stdout (os ex_state_merged)
      ++ ["Mainland USA counties with missing data:" +:+ newline
            +:+ ex_to_string t1;
          "Non-mainland counties with missing data:" +:+ newline
            +:+ ex_to_string t2].
Proof.
  exact (reporter_halts_only_without_name ex_to_string ex_state_merged
           ex_counties ex_cases eq_refl eq_refl).
Defined.

Lemma name_on_both_sides_aborts_witness :
  exists m,
    joined ex_counties ex_cases_named = Ok m /\
    find_column "NAME" (columns m) = None /\
    exists s',
      run (script ex_decode_geojson ex_decode_csv_named ex_encode_geojson
             ex_to_string) ex_state_named = Raised (KeyError "NAME") s' /\
      os s' = os ex_state_named.
Proof.
  eexists. split; [reflexivity |].
  apply (name_on_both_sides_aborts ex_decode_geojson ex_decode_csv_named
           ex_encode_geojson ex_to_string ex_state_named
           ex_counties ex_cases_named _ eq_refl eq_refl eq_refl eq_refl).
  - right. left.
  - right. left.
Defined.

Lemma script_completes_witness :
  exists s' t1 t2,
    run (script ex_decode_geojson ex_decode_csv ex_encode_geojson ex_to_string)
        ex_state = Done s' /\
    merged_data (py s') = ex_merged /\
    select_columns (missing_mainland (py s')) ["GEOID"; "NAME"] = Ok t1 /\
    select_columns (missing_non_mainland (py s')) ["GEOID"; "NAME"] = Ok t2 /\
    files (os s')
    = <[output_geojson_path := "06001,72001,01001"]> (files (os ex_state)) /\
    stdout (os s')
    = stdout (os ex_state)
      ++ ["Mainland USA counties with missing data:" +:+ newline
            +:+ ex_to_string t1;
          "Non-mainland counties with missing data:" +:+ newline
            +:+ ex_to_string t2;
          "New GeoJSON file saved at: merged_county_data.geojson"].
Proof.
  apply (script_completes ex_decode_geojson ex_decode_csv ex_encode_geojson
           ex_to_string ex_state ex_counties ex_cases ex_merged
           "06001,72001,01001" eq_refl eq_refl eq_refl eq_refl).
  - by eexists.
  - reflexivity.
  - apply not_elem_of_empty.
Defined.

Lemma only_output_file_written_witness :
  "counties.geojson" <> output_geojson_path /\
  files (os (final (run (script ex_decode_geojson ex_decode_csv
                           ex_encode_geojson ex_to_string) ex_state)))
    !! "counties.geojson"
  = files (os ex_state) !! "counties.geojson".
Proof.
  assert ("counties.geojson" <> output_geojson_path) as Hne by discriminate.
  split; [exact Hne |].
  exact (proj1 (only_output_file_written ex_decode_geojson ex_decode_csv
                  ex_encode_geojson ex_to_string ex_state) _ Hne).
Defined.

Lemma write_error_after_report_witness :
  exists s' t1 t2,
    run (script ex_decode_geojson ex_decode_csv ex_encode_geojson ex_to_string)
        ex_state_readonly = Raised (IOError output_geojson_path) s' /\
    select_columns (missing_mainland (py s')) ["GEOID"; "NAME"] = Ok t1 /\
    select_columns (missing_non_mainland (py s')) ["GEOID"; "NAME"] = Ok t2 /\
    files (os s') = files (os ex_state_readonly) /\
    stdout (os s')
    = stdout (os ex_state_readonly)
      ++ ["Mainland USA counties with missing data:" +:+ newline
            +:+ ex_to_string t1;
          "Non-mainland counties with missing data:" +:+ newline
            +:+ ex_to_string t2].
Proof.
  apply (write_error_after_report ex_decode_geojson ex_decode_csv
           ex_encode_geojson ex_to_string ex_state_readonly
           ex_counties ex_cases ex_merged "06001,72001,01001"
           eq_refl eq_refl eq_refl eq_refl).
  - by eexists.
  - reflexivity.
  - vm_compute. reflexivity.
Defined.

Lemma merged_frame_rectangular_witness :
  rectangular ex_merged = true /\
  S (length (columns ex_merged))
  = length (columns ex_counties) + length (columns ex_cases).
Proof.
  exact (merged_frame_rectangular ex_counties ex_cases ex_merged
           eq_refl eq_refl).
Defined.

Lemma normalization_idempotent_witness :
  normalize_counties ex_counties = Ok ex_counties_normalized /\
  normalize_counties ex_counties_normalized = Ok ex_counties_normalized.
Proof.
  split; [reflexivity |].
  exact (proj1 (proj2 normalization_idempotent) ex_counties
           ex_counties_normalized eq_refl eq_refl).
Defined.

Lemma join_pairs_equal_normalized_witness :
  (0, Some 1) ∈ join_indexers 0 (identifiers ex_counties_normalized)
                              (identifiers ex_cases_normalized).
Proof.
  apply (join_pairs_equal_normalized ex_counties ex_cases
           ex_counties_normalized ex_cases_normalized
           eq_refl eq_refl eq_refl eq_refl 0 1).
  exists (VInt 6001), "06001". repeat split; reflexivity.
Defined.

Lemma report_labels_are_positions_witness :
  (1, [VStr "72001"; VStr "Adjuntas"; VGeom "POLYGON ((2 2, 3 2, 3 3, 2 2))";
       VNaN]) ∈ rows ex_missing /\
  rows ex_merged !! 1
  = Some (1, [VStr "72001"; VStr "Adjuntas";
              VGeom "POLYGON ((2 2, 3 2, 3 3, 2 2))"; VNaN]).
Proof.
  assert ((1, [VStr "72001"; VStr "Adjuntas";
               VGeom "POLYGON ((2 2, 3 2, 3 3, 2 2))"; VNaN]) ∈ rows ex_missing)
    as Hin by left.
  split; [exact Hin |].
  exact (proj1 (report_labels_are_positions ex_counties ex_cases ex_merged
                  ex_missing eq_refl eq_refl) _ Hin).
Defined.

Lemma unmatched_reported_witness :
  exists n,
    rows ex_merged !! n
    = Some (n, [VStr "72001"; VStr "Adjuntas";
                VGeom "POLYGON ((2 2, 3 2, 3 3, 2 2))"]
               ++ replicate (length (columns ex_cases) - 1) VNaN) /\
    ((n, [VStr "72001"; VStr "Adjuntas";
          VGeom "POLYGON ((2 2, 3 2, 3 3, 2 2))"]
         ++ replicate (length (columns ex_cases) - 1) VNaN) ∈ rows ex_missing <->
     existsb isna [VStr "72001"; VStr "Adjuntas";
                   VGeom "POLYGON ((2 2, 3 2, 3 3, 2 2))"] = true \/
     1 < length (columns ex_cases)).
Proof.
  apply (unmatched_reported ex_counties ex_cases ex_counties_normalized
           ex_cases_normalized ex_merged ex_missing 1
           (1, [VStr "72001"; VStr "Adjuntas";
                VGeom "POLYGON ((2 2, 3 2, 3 3, 2 2))"])
           (VStr "72001") eq_refl eq_refl eq_refl eq_refl eq_refl eq_refl).
  intros x Hx. vm_compute in Hx.
  repeat (apply elem_of_cons in Hx as [-> | Hx]; [reflexivity |]).
  by apply elem_of_nil in Hx.
Defined.

Lemma complete_inputs_empty_report_witness :
  joined ex_two_counties ex_two_cases = Ok ex_two_merged /\
  rows_with_missing ex_two_merged = Ok (mkFrame (columns ex_two_merged) []) /\
  rows (mkFrame (columns ex_two_merged) []) = [].
Proof.
  split; [reflexivity |]. split; [reflexivity |].
  apply (complete_inputs_empty_report ex_two_counties ex_two_cases
           ex_two_counties ex_two_cases ex_two_merged
           (mkFrame (columns ex_two_merged) [])
           eq_refl eq_refl eq_refl eq_refl eq_refl).
  - repeat constructor.
  - repeat constructor.
  - repeat constructor.
    + exists (VStr "06001"). split; [right; left | reflexivity].
    + exists (VStr "01001"). split; [left | reflexivity].
Defined.
